(** * WinsWereld inventory client: HTTP access layer, image lookup,
    item-form reconcilers and barcode-scanner adapter.

  A shallow embedding of [src/api.ts], the two item forms
  ([AddItemForm], [EditItemForm]) and [BarcodeScanner.tsx].

  JavaScript numbers are IEEE-754 binary64 values, so they are embedded
  as Rocq's primitive [float]; JavaScript objects used as string-keyed
  records are embedded as [gmap string _]; promises that settle are
  embedded by their outcome (fulfilled / rejected), with the effects a
  call performs (log lines, timers, calls into the scanning library)
  threaded through an explicit state.  The async functions of the
  scanner component are cut at their awaits on the scanning library, and
  the pieces of different calls are interleaved one turn of the event
  loop at a time. *)

From Stdlib Require Import Floats.
From stdpp Require Import base option list gmap strings.

Local Open Scope string_scope.
Local Open Scope nat_scope.
Local Open Scope list_scope.
Local Open Scope stdpp_scope.

(* ===================================================================== *)
(** * HTTP access layer ([src/api.ts]) *)
(* ===================================================================== *)

Module Api.

Inductive Method := GET | POST | PUT | DELETE.

(** What the transport sees of a request. *)
Record Request := mkRequest {
  url : string;
  method : Method;
  data : option string
}.

(** [RetryConfig extends InternalAxiosRequestConfig]: the request plus the
    optional [retryCount] the response interceptor maintains. *)
Record RetryConfig := mkConfig {
  request : Request;
  retryCount : option nat
}.

Record AxiosResponse := mkResponse {
  status : nat;
  body : string
}.

(** The fields of [AxiosError] the interceptor reads or writes. *)
Record AxiosError := mkError {
  code : option string;
  response : option AxiosResponse;
  message : string;
  config : option RetryConfig
}.

(** What one underlying attempt does.  A failure carries the raw error as
    the HTTP client produces it; [f_has_config] tells whether the client
    attached the request configuration to it (it does for every failure
    of a dispatched request; an error raised before the request was
    built has none). *)
Record Failure := mkFailure {
  f_code : option string;
  f_response : option AxiosResponse;
  f_message : string;
  f_has_config : bool
}.

Inductive Attempt :=
| Responds (r : AxiosResponse)
| Fails (f : Failure).

(** The outcome of the promise returned to the caller. *)
Inductive Outcome :=
| Fulfilled (r : AxiosResponse)
| Rejected (e : AxiosError).

(** Observable effects, in chronological order. *)
Inductive Event :=
| LogRequest (u : string)        (* console.log('Making request to:', url) *)
| LogResponse (st : nat)         (* console.log('Response received:', status) *)
| LogRetry (n : nat)             (* console.log(`Retrying request (n/MAX)...`) *)
| Sleep (ms : nat)               (* setTimeout(resolve, ms) awaited *)
| LogFinalError.                 (* console.error('Final error after retries:') *)

(** [sent] counts the underlying attempts made so far. *)
Record World := mkWorld {
  sent : nat;
  events : list Event
}.

Definition emit (e : Event) (w : World) : World :=
  mkWorld (sent w) (events w ++ [e]).

Definition MAX_RETRIES : nat := 3.
Definition RETRY_DELAY : nat := 1000.

Definition timeout_message : string :=
  "Request timed out. Please check if the server is running.".
Definition network_message : string :=
  "Network error. Please check your connection and if the server is running.".

(** [error.code === c] *)
Definition code_is (c : option string) (s : string) : bool :=
  match c with
  | Some c' => String.eqb c' s
  | None => false
  end.

(** The error object the client rejects with for a failed attempt. *)
Definition raise (cfg : RetryConfig) (f : Failure) : AxiosError :=
  mkError (f_code f) (f_response f) (f_message f)
          (if f_has_config f then Some cfg else None).

(** The rejection handler of [api.interceptors.response.use]; [retry] is
    [api(config)]. *)
Definition onRejected
    (retry : RetryConfig -> World -> option (Outcome * World))
    (error : AxiosError) (w : World) : option (Outcome * World) :=
  match config error with
  | None => Some (Rejected error, w)
  | Some config =>
      (* config.retryCount = config.retryCount || 0 *)
      let count := default 0 (retryCount config) in
      if count <? MAX_RETRIES then
        let config := mkConfig (request config) (Some (count + 1)) in
        let w := emit (LogRetry (count + 1)) w in
        let w := emit (Sleep RETRY_DELAY) w in
        retry config w
      else
        let config := mkConfig (request config) (Some count) in
        let message' :=
          if code_is (code error) "ECONNABORTED" then timeout_message
          else if response error is None then network_message
          else message error in
        let error := mkError (code error) (response error) message'
                             (Some config) in
        Some (Rejected error, emit LogFinalError w)
  end.

(** The exported operations. *)
Inductive Operation :=
| getAllItems
| getItemByBarcode (barcode : string)
| createItem (payload : string)
| updateItem (id : string) (payload : string)
| deleteItem (id : string).

Definition request_of (op : Operation) : Request :=
  match op with
  | getAllItems => mkRequest "" GET None
  | getItemByBarcode barcode => mkRequest ("/" +:+ barcode) GET None
  | createItem payload => mkRequest "" POST (Some payload)
  | updateItem id payload => mkRequest ("/" +:+ id) PUT (Some payload)
  | deleteItem id => mkRequest ("/" +:+ id) DELETE None
  end.

(** The events of [k] failed rounds starting at retry count [rc]. *)
Fixpoint retry_rounds (u : string) (rc k : nat) : list Event :=
  match k with
  | 0 => []
  | S k' =>
      LogRequest u :: LogRetry (S rc) :: Sleep RETRY_DELAY
        :: retry_rounds u (S rc) k'
  end.

Definition sleeps (w : World) : list nat :=
  omap (fun e => if e is Sleep ms then Some ms else None) (events w).

Definition final_errors (w : World) : nat :=
  length (omap (fun e => if e is LogFinalError then Some e else None)
               (events w)).

Definition requests_logged (w : World) : nat :=
  length (omap (fun e => if e is LogRequest _ then Some e else None)
               (events w)).

(** The message the caller sees once retries are exhausted on [f]. *)
Definition surfaced (req : Request) (f : Failure) (msg : string)
  : AxiosError :=
  mkError (f_code f) (f_response f) msg
          (Some (mkConfig req (Some MAX_RETRIES))).

Section Transport.

(** The behaviour of the network at the [n]-th attempt. *)
Variable net : nat -> Request -> Attempt.

(** [api(config)]: request interceptor, one underlying attempt, then
    the response interceptors.  [fuel] bounds the nesting of [api]
    calls; [perform_total] shows [S MAX_RETRIES] always suffices. *)
Fixpoint api (fuel : nat) (cfg : RetryConfig) (w : World)
  : option (Outcome * World) :=
  match fuel with
  | 0 => None
  | S fuel' =>
      let w := emit (LogRequest (url (request cfg))) w in
      let n := sent w in
      let w := mkWorld (S n) (events w) in
      match net n (request cfg) with
      | Responds r => Some (Fulfilled r, emit (LogResponse (status r)) w)
      | Fails f => onRejected (api fuel') (raise cfg f) w
      end
  end.

Definition perform (op : Operation) : option (Outcome * World) :=
  api (S MAX_RETRIES) (mkConfig (request_of op) None) (mkWorld 0 []).

(** An attempt that fails with an error carrying its configuration. *)
Definition fails_with_config (n : nat) (req : Request) : Prop :=
  exists f, net n req = Fails f /\ f_has_config f = true.

End Transport.

(** A transport used to exercise the retry path: a timeout, a refused
    connection and a server error, then success. *)
Definition flaky_net (n : nat) (_ : Request) : Attempt :=
  match n with
  | 0 => Fails (mkFailure (Some "ECONNABORTED") None
                  "timeout of 5000ms exceeded" true)
  | 1 => Fails (mkFailure (Some "ERR_NETWORK") None "Network Error" true)
  | 2 => Fails (mkFailure (Some "ERR_BAD_RESPONSE")
                  (Some (mkResponse 500 "oops"))
                  "Request failed with status code 500" true)
  | _ => Responds (mkResponse 200 "[]")
  end.

(** A server that answers every attempt with status 500. *)
Definition error_500 : Failure :=
  mkFailure (Some "ERR_BAD_RESPONSE") (Some (mkResponse 500 "oops"))
    "Request failed with status code 500" true.

Definition broken_net (_ : nat) (_ : Request) : Attempt := Fails error_500.

(** A server that never answers within the timeout, and a network that is
    down: the errors the HTTP client raises in these two cases. *)
Definition error_timeout : Failure :=
  mkFailure (Some "ECONNABORTED") None "timeout of 5000ms exceeded" true.

Definition timeout_net (_ : nat) (_ : Request) : Attempt :=
  Fails error_timeout.

Definition error_offline : Failure :=
  mkFailure (Some "ERR_NETWORK") None "Network Error" true.

Definition offline_net (_ : nat) (_ : Request) : Attempt :=
  Fails error_offline.

End Api.

(* ===================================================================== *)
(** * JavaScript values held by form state and inventory records *)
(* ===================================================================== *)

Module Js.

(** The values a field of [Partial<InventoryItem>] can hold at run time:
    a string, a number, [undefined], or [null] (which the forms test for
    explicitly). *)
Inductive Value :=
| Undefined
| Null
| Str (s : string)
| Num (n : float).

(** A plain object with string keys. *)
Abbreviation Object := (gmap string Value).

(** [o[k]]: an absent property reads as [undefined]. *)
Definition get (o : Object) (k : string) : Value :=
  default Undefined (o !! k).

(** The two ECMAScript conversions between strings and numbers
    ([StringToNumber] and [Number::toString]) are taken as given; every
    result below holds for any implementation of them. *)
Class Conversions := {
  StringToNumber : string -> float;
  NumberToString : float -> string
}.

(** A fixed instance for the closed examples; none of them converts a
    string to a number or a number to a string. *)
Definition no_conversions : Conversions :=
  {| StringToNumber := fun _ => nan; NumberToString := fun _ => "" |}.

Section WithConversions.
Context {conv : Conversions}.

(** [Number(v)] *)
Definition ToNumber (v : Value) : float :=
  match v with
  | Undefined => nan
  | Null => 0%float
  | Str s => StringToNumber s
  | Num n => n
  end.

(** [String(v)] *)
Definition ToString (v : Value) : string :=
  match v with
  | Undefined => "undefined"
  | Null => "null"
  | Str s => s
  | Num n => NumberToString n
  end.

End WithConversions.

(** [isNaN(n)] on a number. *)
Definition isNaN (n : float) : bool := is_nan n.

(** [Number.isFinite(n)]: neither NaN nor an infinity. *)
Definition isFinite (n : float) : bool :=
  negb (is_nan n) && negb (is_infinity n).

(** [a === b] *)
Definition strict_eq (a b : Value) : bool :=
  match a, b with
  | Undefined, Undefined => true
  | Null, Null => true
  | Str s, Str t => String.eqb s t
  | Num x, Num y => PrimFloat.eqb x y
  | _, _ => false
  end.

(** Truthiness, as tested by [!v], [v ? _ : _] and [v || _]. *)
Definition truthy (v : Value) : bool :=
  match v with
  | Undefined | Null => false
  | Str s => negb (String.eqb s "")
  | Num n => negb (is_nan n || PrimFloat.eqb n 0%float)
  end.

(** [a || b] *)
Definition or_else (a b : Value) : Value := if truthy a then a else b.

(** [k === 'price' || k === 'quantity'] *)
Definition isNumericKey (k : string) : bool :=
  String.eqb k "price" || String.eqb k "quantity".

End Js.

(* ===================================================================== *)
(** * Creation form ([AddItemForm]) *)
(* ===================================================================== *)

Module AddItemForm.
Import Js.

Section WithConversions.
Context {conv : Conversions}.

(** The initial form state. *)
Definition initialFormData : Object :=
  {[ "barcode" := Str ""; "name" := Str ""; "description" := Str "";
     "category" := Str ""; "quantity" := Undefined; "price" := Undefined;
     "expiryDate" := Str ""; "photoURL" := Str "" ]}.

(** [handleChange]: [value] is the text of the input named [name]. *)
Definition handleChange (name value : string) (formData : Object) : Object :=
  <[ name :=
       if isNumericKey name
       then (if String.eqb value "" then Undefined
             else Num (StringToNumber value))
       else Str value ]> formData.

(** The callback passed to [Object.entries(formData).forEach] in
    [handleSubmit]; [dataToSend] is the object under construction. *)
Definition addEntry (k : string) (value : Value) (dataToSend : Object)
  : Object :=
  if strict_eq value (Str "") || strict_eq value Undefined
     || strict_eq value Null
  then dataToSend
  else if isNumericKey k then
    let numValue := ToNumber value in
    if negb (isNaN numValue) && PrimFloat.ltb 0%float numValue
    then <[ k := Num numValue ]> dataToSend
    else dataToSend
  else <[ k := Str (ToString value) ]> dataToSend.

(** The object [handleSubmit] passes to [createItem]. *)
Definition dataToSend (formData : Object) : Object :=
  map_fold addEntry ∅ formData.

End WithConversions.

(** The inputs of the form whose [onChange] is [handleChange]; the
    barcode input has [handleBarcodeChange] instead. *)
Definition handleChange_inputs : list string :=
  ["name"; "description"; "category"; "quantity"; "price"; "expiryDate";
   "photoURL"].

Definition uses_handleChange (name : string) : bool :=
  existsb (String.eqb name) handleChange_inputs.

(** The working copy of the example: an empty name, a zero price and a
    positive quantity. *)
Definition example_form : Object :=
  {[ "name" := Str ""; "price" := Num 0%float; "quantity" := Num 5%float ]}.

(** A working copy whose price is positive infinity. *)
Definition infinite_price_form : Object := {[ "price" := Num infinity ]}.

End AddItemForm.

(* ===================================================================== *)
(** * Edit form ([EditItemForm]) *)
(* ===================================================================== *)

Module EditItemForm.
Import Js.

(** What [handleSubmit] does: either it sets an error and returns without
    calling the access layer, or it calls [updateItem(item.id, data)]. *)
Inductive Submission :=
| ShowError (msg : string)
| CallUpdateItem (id : Value) (data : Object).

Section WithConversions.
Context {conv : Conversions}.

(** The form state computed from the item being edited. *)
Definition initialFormData (item : Object) : Object :=
  {[ "barcode" := or_else (get item "barcode") (Str "");
     "name" := or_else (get item "name") (Str "");
     "description" := or_else (get item "description") (Str "");
     "category" := or_else (get item "category") (Str "");
     "quantity" := get item "quantity";
     "price" := get item "price";
     "expiryDate" := or_else (get item "expiryDate") (Str "");
     "photoURL" := or_else (get item "photoURL") (Str "") ]}.

(** [handleChange]: [value] is the text of the input named [name]. *)
Definition handleChange (name value : string) (formData : Object) : Object :=
  <[ name :=
       if isNumericKey name
       then (if String.eqb value "" then Undefined
             else Num (StringToNumber value))
       else Str value ]> formData.

(** The callback passed to [Object.entries(formData).forEach] in
    [handleSubmit]. *)
Definition editEntry (item : Object) (k : string) (value : Value)
    (dataToSend : Object) : Object :=
  let originalValue := get item k in
  if isNumericKey k then
    if strict_eq value (Str "") then
      if negb (strict_eq originalValue Undefined)
      then <[ k := Undefined ]> dataToSend
      else dataToSend
    else if negb (strict_eq value Undefined) then
      let numValue := ToNumber value in
      if negb (strict_eq (Num numValue) originalValue)
      then <[ k := Num numValue ]> dataToSend
      else dataToSend
    else dataToSend
  else
    if strict_eq value (Str "") then
      if negb (strict_eq originalValue Undefined)
      then <[ k := Undefined ]> dataToSend
      else dataToSend
    else if negb (strict_eq value originalValue) then
      <[ k := if truthy value then Str (ToString value) else Undefined ]>
        dataToSend
    else dataToSend.

(** The change-set built by [handleSubmit]. *)
Definition dataToSend (item formData : Object) : Object :=
  map_fold (editEntry item) ∅ formData.

Definition handleSubmit (item formData : Object) : Submission :=
  if negb (truthy (get item "id")) then ShowError "Item ID is missing"
  else
    let dataToSend := dataToSend item formData in
    (* Object.keys(dataToSend).length === 0 *)
    if size dataToSend =? 0
    then ShowError "No changes were made to the item"
    else CallUpdateItem (get item "id") dataToSend.

(** The records the edit form is written for: a text field is absent or a
    non-empty string, a numeric field is absent or a number other than
    NaN. *)
Definition is_text (v : Value) : bool :=
  match v with
  | Undefined => true
  | Str s => negb (String.eqb s "")
  | _ => false
  end.

Definition is_number (v : Value) : bool :=
  match v with
  | Undefined => true
  | Num n => negb (is_nan n)
  | _ => false
  end.

Definition plain_item (item : Object) : bool :=
  is_text (get item "barcode") && is_text (get item "name")
  && is_text (get item "description") && is_text (get item "category")
  && is_number (get item "quantity") && is_number (get item "price")
  && is_text (get item "expiryDate") && is_text (get item "photoURL").

End WithConversions.

(** The inputs of the form whose [onChange] is [handleChange]; the
    barcode input has [handleBarcodeChange] instead. *)
Definition handleChange_inputs : list string :=
  ["name"; "description"; "category"; "quantity"; "price"; "expiryDate";
   "photoURL"].

Definition uses_handleChange (name : string) : bool :=
  existsb (String.eqb name) handleChange_inputs.

(** The record and the edit of the example: the category is emptied. *)
Definition food_item : Object :=
  {[ "id" := Str "1"; "price" := Num 10%float; "category" := Str "food" ]}.

(** A record with a price only. *)
Definition priced_item : Object :=
  {[ "id" := Str "1"; "price" := Num 10%float ]}.

(** A record whose name is the empty string. *)
Definition unnamed_item : Object :=
  {[ "id" := Str "1"; "name" := Str "" ]}.

(** A record whose price is [null]. *)
Definition null_price_item : Object :=
  {[ "id" := Str "1"; "price" := Null ]}.

End EditItemForm.

(* ===================================================================== *)
(** * Product image lookup ([getProductImage] in [src/api.ts]) *)
(* ===================================================================== *)

Module ImageLookup.

(** The values reachable from a parsed JSON document, and [undefined],
    which reading an absent member yields. *)
#[warnings="-register-all"]
Inductive Value :=
| Undefined
| Null
| Bool (b : bool)
| Num (n : float)
| Str (s : string)
| Arr (items : list Value)
| Obj (members : gmap string Value).

(** A JavaScript computation either returns or throws. *)
Inductive Completion (A : Type) :=
| Return (a : A)
| Throw (what : string).
Arguments Return {A} a.
Arguments Throw {A} what.

Definition bind {A B} (c : Completion A) (k : A -> Completion B)
  : Completion B :=
  match c with
  | Return a => k a
  | Throw what => Throw what
  end.

#[export] Instance completion_bind : MBind Completion :=
  fun A B k c => bind c k.

(** [try { body } catch (error) { handler }] *)
Definition tryCatch {A} (body : Completion A) (handler : string -> Completion A)
  : Completion A :=
  match body with
  | Return a => Return a
  | Throw what => handler what
  end.

(** [v.p] for the member names read here ([status], [product],
    [image_front_url], [image_url]): reading a member of [undefined] or
    [null] throws a TypeError; an object yields the member or [undefined];
    booleans, numbers, strings and arrays have no member of these names. *)
Definition member (v : Value) (p : string) : Completion Value :=
  match v with
  | Undefined | Null => Throw "TypeError"
  | Obj members => Return (default Undefined (members !! p))
  | _ => Return Undefined
  end.

(** [v === 1] *)
Definition is_one (v : Value) : bool :=
  match v with
  | Num n => PrimFloat.eqb n 1%float
  | _ => false
  end.

Definition truthy (v : Value) : bool :=
  match v with
  | Undefined | Null => false
  | Bool b => b
  | Num n => negb (is_nan n || PrimFloat.eqb n 0%float)
  | Str s => negb (String.eqb s "")
  | Arr _ | Obj _ => true
  end.

(** What the request to the catalog does: [fetch] rejects, or it resolves
    and [res.json()] either rejects (the body is not JSON) or yields the
    parsed document. *)
Inductive FetchOutcome :=
| FetchRejected
| BodyNotJson
| Parsed (data : Value).

Definition catalog_url (barcode : string) : string :=
  "https://world.openfoodfacts.org/api/v0/product/" +:+ barcode +:+ ".json".

Section Catalog.

Variable fetch : string -> FetchOutcome.

Definition fetch_json (u : string) : Completion Value :=
  match fetch u with
  | FetchRejected => Throw "TypeError: Failed to fetch"
  | BodyNotJson => Throw "SyntaxError"
  | Parsed data => Return data
  end.

Definition getProductImage (barcode : string) : Completion Value :=
  tryCatch
    (data ← fetch_json (catalog_url barcode);
     status ← member data "status";
     if is_one status then
       product ← member data "product";
       front ← member product "image_front_url";
       if truthy front then Return front
       else (product ← member data "product";
             member product "image_url")
     else Return Null)
    (fun _ => Return Null).

End Catalog.

(** Catalog answers used in the examples. *)
Definition not_found_answer : Value :=
  Obj {[ "status" := Num 0%float; "status_verbose" := Str "product not found" ]}.

Definition found_answer : Value :=
  Obj {[ "status" := Num 1%float;
         "product" := Obj {[ "image_front_url" := Str "https://img/front.jpg";
                             "image_url" := Str "https://img/any.jpg" ]} ]}.

(** A product that is in the catalog but has no picture. *)
Definition found_without_image : Value :=
  Obj {[ "status" := Num 1%float;
         "product" := Obj {[ "product_name" := Str "Rice" ]} ]}.

End ImageLookup.

(* ===================================================================== *)
(** * Barcode scanner adapter ([BarcodeScanner.tsx]) *)
(* ===================================================================== *)

Module BarcodeScanner.

(** [s.includes(sub)] *)
Fixpoint includes (s sub : string) : bool :=
  String.prefix sub s ||
  match s with
  | EmptyString => false
  | String _ s' => includes s' sub
  end.

(** [String.prototype.toLowerCase] follows the Unicode case mapping,
    which is taken as given: every result below holds for any
    implementation of it. *)
Class CaseMapping := {
  toLowerCase : string -> string
}.

(** The mapping on the ASCII letters, a fixed instance for the closed
    examples, whose labels are ASCII. *)
Definition lower (c : Ascii.ascii) : Ascii.ascii :=
  let n := Ascii.nat_of_ascii c in
  if (65 <=? n) && (n <=? 90) then Ascii.ascii_of_nat (n + 32) else c.

Fixpoint lowerAscii (s : string) : string :=
  match s with
  | EmptyString => EmptyString
  | String c s' => String (lower c) (lowerAscii s')
  end.

Definition ascii_labels : CaseMapping := {| toLowerCase := lowerAscii |}.

Record Camera := mkCamera {
  id : string;
  label : string
}.

(** A caught value as the handlers read it: [err.name] and [err.message],
    absent on values that are not errors.  (The scanning library throws
    errors and strings, never [undefined] or [null], on which reading
    [name] would itself throw.) *)
Record Thrown := mkThrown {
  name : option string;
  message : option string
}.

(** The first argument of [html5QrCode.start]. *)
Inductive CameraTarget :=
| FacingEnvironment
| DeviceId (cameraId : string).

(** Calls that cross the adapter's boundary, in chronological order:
    into the scanning library, back to the owner of the component, and
    the one timer. *)
Inductive Event :=
| Stopped (h : nat)                        (* stop() released the session *)
| StopFailed (h : nat)                     (* stop() threw or rejected *)
| Started (h : nat) (target : CameraTarget)      (* start() resolved *)
| StartFailed (h : nat) (target : CameraTarget)  (* start() rejected *)
| Detected (decodedText : string)          (* onBarcodeDetected(decodedText) *)
| ShowGuidesAfter (ms : nat).              (* setTimeout(.., ms) *)

(** What the platform does during one call of [initializeScanner]. *)
Inductive CamerasOutcome :=
| CamerasRejected (err : Thrown)
| CamerasResolved (cameras : option (list Camera)).

Record Env := mkEnv {
  isIOS : bool;                     (* /iPad|iPhone|iPod/.test(userAgent) *)
  construct : option Thrown;        (* new Html5Qrcode("reader") throws *)
  getCameras : CamerasOutcome;      (* Html5Qrcode.getCameras() *)
  start : option Thrown             (* html5QrCode.start(..) rejects *)
}.

(** The three callers of [stopScanner]: the clean-up of the effect (which
    does not wait for it), [toggleCamera] and [initializeScanner]. *)
Inductive Caller :=
| ByCleanup
| ByToggleCamera
| ByInitializeScanner (env : Env).

(** A call of an async function of the component that is suspended at an
    [await] on a promise of the scanning library: [stop()] inside
    [stopScanner], and [getCameras()] and [start(..)] inside
    [initializeScanner], on the instance [h] that call has constructed. *)
Inductive Suspension :=
| AwaitStop (caller : Caller)
| AwaitCameras (env : Env) (h : nat)
| AwaitStart (env : Env) (h : nat) (target : CameraTarget).

(** A script element appended by the effect: [captured] is the value of
    [isCameraActive] its [onload] handler closes over, [fired] tells
    whether its load or error event has been delivered. *)
Record Script := mkScript {
  captured : bool;
  fired : bool
}.

(** The component state, the instance reference, and the side of the
    scanning library the adapter depends on: [scanning] lists the
    [Html5Qrcode] instances (numbered in order of creation) whose session
    is running, [created] counts the instances made so far.  [scripts]
    are the script elements appended so far, [pending] the suspended
    calls (a slot is emptied when its call returns), [timers] the number
    of guide timers not yet fired. *)
Record State := mkState {
  error : string;
  isCameraActive : bool;
  isLoading : bool;
  scanningTips : string;
  showGuides : bool;
  html5QrCodeRef : option nat;
  scanning : list nat;
  created : nat;
  trace : list Event;
  console : list string;
  scripts : list Script;
  pending : list (option Suspension);
  timers : nat
}.

(** The component once mounted: the effect has run for the first time and
    appended its script, with the camera switched off. *)
Definition initial : State :=
  mkState "" false false "" false None [] 0 [] [] [mkScript false false] [] 0.

Definition setError (v : string) (s : State) : State :=
  mkState
    v (isCameraActive s) (isLoading s) (scanningTips s) (showGuides s)
    (html5QrCodeRef s) (scanning s) (created s) (trace s) (console s)
    (scripts s) (pending s) (timers s).
Definition setIsCameraActive (v : bool) (s : State) : State :=
  mkState
    (error s) v (isLoading s) (scanningTips s) (showGuides s)
    (html5QrCodeRef s) (scanning s) (created s) (trace s) (console s)
    (scripts s) (pending s) (timers s).
Definition setIsLoading (v : bool) (s : State) : State :=
  mkState
    (error s) (isCameraActive s) v (scanningTips s) (showGuides s)
    (html5QrCodeRef s) (scanning s) (created s) (trace s) (console s)
    (scripts s) (pending s) (timers s).
Definition setScanningTips (v : string) (s : State) : State :=
  mkState
    (error s) (isCameraActive s) (isLoading s) v (showGuides s)
    (html5QrCodeRef s) (scanning s) (created s) (trace s) (console s)
    (scripts s) (pending s) (timers s).
Definition setShowGuides (v : bool) (s : State) : State :=
  mkState
    (error s) (isCameraActive s) (isLoading s) (scanningTips s) v
    (html5QrCodeRef s) (scanning s) (created s) (trace s) (console s)
    (scripts s) (pending s) (timers s).
Definition setRef (v : option nat) (s : State) : State :=
  mkState
    (error s) (isCameraActive s) (isLoading s) (scanningTips s)
    (showGuides s) v (scanning s) (created s) (trace s) (console s)
    (scripts s) (pending s) (timers s).
Definition setScanning (v : list nat) (s : State) : State :=
  mkState
    (error s) (isCameraActive s) (isLoading s) (scanningTips s)
    (showGuides s) (html5QrCodeRef s) v (created s) (trace s) (console s)
    (scripts s) (pending s) (timers s).
Definition setCreated (v : nat) (s : State) : State :=
  mkState
    (error s) (isCameraActive s) (isLoading s) (scanningTips s)
    (showGuides s) (html5QrCodeRef s) (scanning s) v (trace s) (console s)
    (scripts s) (pending s) (timers s).
Definition record (e : Event) (s : State) : State :=
  mkState
    (error s) (isCameraActive s) (isLoading s) (scanningTips s)
    (showGuides s) (html5QrCodeRef s) (scanning s) (created s)
    (trace s ++ [e]) (console s) (scripts s) (pending s) (timers s).
Definition log (line : string) (s : State) : State :=
  mkState
    (error s) (isCameraActive s) (isLoading s) (scanningTips s)
    (showGuides s) (html5QrCodeRef s) (scanning s) (created s) (trace s)
    (console s ++ [line]) (scripts s) (pending s) (timers s).
Definition setScripts (v : list Script) (s : State) : State :=
  mkState
    (error s) (isCameraActive s) (isLoading s) (scanningTips s)
    (showGuides s) (html5QrCodeRef s) (scanning s) (created s) (trace s)
    (console s) v (pending s) (timers s).
Definition setPending (v : list (option Suspension)) (s : State) : State :=
  mkState
    (error s) (isCameraActive s) (isLoading s) (scanningTips s)
    (showGuides s) (html5QrCodeRef s) (scanning s) (created s) (trace s)
    (console s) (scripts s) v (timers s).
Definition setTimers (v : nat) (s : State) : State :=
  mkState
    (error s) (isCameraActive s) (isLoading s) (scanningTips s)
    (showGuides s) (html5QrCodeRef s) (scanning s) (created s) (trace s)
    (console s) (scripts s) (pending s) v.

(** The scanning library is a third-party script outside the repository.
    The adapter relies on two of its methods, modelled by their documented
    contract: [stop()] on an instance that is scanning releases its
    session and resolves, and on an instance that is not scanning it
    rejects ("Cannot stop, scanner is not running or paused"); [start()]
    either rejects, leaving the instance as it was, or resolves with the
    session of that instance running. *)
Definition is_scanning (h : nat) (s : State) : bool :=
  bool_decide (h ∈ scanning s).

Definition lib_stop (h : nat) (s : State) : option State :=
  if is_scanning h s then
    let s := setScanning (filter (fun x => x ≠ h) (scanning s)) s in
    Some (record (Stopped h) s)
  else None.

Definition lib_start (h : nat) (target : CameraTarget)
    (outcome : option Thrown) (s : State) : option State :=
  match outcome with
  | Some err => None
  | None =>
      let s := setScanning (h :: scanning s) s in
      Some (record (Started h target) s)
  end.

(** [handleBarcodeDetected] *)
Definition handleBarcodeDetected (decodedText : string) (s : State) : State :=
  let s := log "Barcode detected:" s in
  record (Detected decodedText) s.

(** The success callback handed to [start]. *)
Definition onScanSuccess (decodedText : string) (s : State) : State :=
  let s := log "Barcode detected:" s in
  handleBarcodeDetected decodedText s.

(** The per-frame error callback handed to [start]. *)
Definition onScanFailure (errorMessage : string) (s : State) : State :=
  if negb (includes errorMessage "No barcode or QR code found")
  then log "Scanning error:" s
  else s.

(** [err.name === n] *)
Definition name_is (err : Thrown) (n : string) : bool :=
  match name err with
  | Some n' => String.eqb n' n
  | None => false
  end.

(** The messages of the outer [catch] of [initializeScanner]. *)
Definition classify (mediaError : Thrown) : string :=
  if name_is mediaError "NotAllowedError" then
    "Camera access was denied. Please allow camera access in your browser settings and refresh the page."
  else if name_is mediaError "NotFoundError" then
    "No camera found. Please make sure your camera is connected and try again."
  else if name_is mediaError "NotReadableError" then
    "Camera is in use by another application. Please close other apps using the camera and try again."
  else if name_is mediaError "OverconstrainedError" then
    "Camera does not meet the required specifications. Please try again with different camera settings."
  else
    "Failed to initialize camera: " +:+
    (match message mediaError with
     | Some m => if String.eqb m "" then "Unknown error" else m
     | None => "Unknown error"
     end) +:+
    ". Please check your camera permissions and try again.".

(** The tail of a successful initialization: the tip, the timer that
    shows the guides one second later, and the [finally] block. *)
Definition ready (s : State) : State :=
  let s := setScanningTips
             "Camera ready. Position the barcode in the center of the frame." s in
  let s := record (ShowGuidesAfter 1000) s in
  let s := setTimers (S (timers s)) s in
  setIsLoading false s.

(** The inner [catch] of the iOS branch. *)
Definition iosStartFailed (s : State) : State :=
  let s := log "Failed to start with environment facingMode:" s in
  let s := setError "Failed to initialize camera. Please try again." s in
  let s := setIsCameraActive false s in
  setIsLoading false s.

(** The inner [catch] of the other branch. *)
Definition cameraInitFailed (s : State) : State :=
  let s := log "Camera initialization error:" s in
  let s := setError
    "Failed to initialize camera. Please check your camera permissions and try again." s in
  let s := setIsCameraActive false s in
  setIsLoading false s.

(** ** The async functions, piece by piece

    An async function runs until it awaits a promise of the scanning
    library, and is resumed, in a later turn of the event loop, when that
    promise settles; in between, other handlers of the component may run.
    A piece returns the state it leaves and the [Suspension] it stops
    at, if any.  An [await] on a promise of the component itself that is
    already settled (the one of [stopScanner()] when it made no call, or
    a call that failed) resumes before any other handler, and is not a
    point of suspension. *)
Definition Run : Type := State * option Suspension.

(** [stopScanner], up to its [await]: it either has called [stop()] on
    the running instance and waits for it, or has returned. *)
Inductive Stop :=
| StopAwaited (s : State)
| StopReturned (s : State).

Definition stopScanner_begin (s : State) : Stop :=
  match html5QrCodeRef s with
  | Some h =>
      match lib_stop h s with
      | Some s => StopAwaited s
      | None =>
          let s := record (StopFailed h) s in
          StopReturned (log "Error stopping scanner:" s)
      end
  | None => StopReturned s
  end.

(** [html5QrCodeRef.current = null], the statement after the [await]. *)
Definition stopScanner_afterStop (s : State) : State := setRef None s.

(** [await stopScanner()] in [caller], followed by [rest]. *)
Definition awaitStopScanner (caller : Caller) (rest : State -> Run)
    (s : State) : Run :=
  match stopScanner_begin s with
  | StopAwaited s => (s, Some (AwaitStop caller))
  | StopReturned s => rest s
  end.

(** [toggleCamera] *)
Definition toggleCamera_afterStop (s : State) : State :=
  let s := setIsCameraActive false s in
  let s := setScanningTips "" s in
  setShowGuides false s.

Definition toggleCamera_begin (s : State) : Run :=
  if isCameraActive s then
    awaitStopScanner ByToggleCamera
      (fun s => (toggleCamera_afterStop s, None)) s
  else (setIsCameraActive true s, None).

Section WithCaseMapping.
Context {cm : CaseMapping}.

Definition isBackCamera (camera : Camera) : bool :=
  let label := toLowerCase (label camera) in
  includes label "back" || includes label "rear"
  || includes label "environment" || includes label "main"
  || includes label "primary".

(** The camera the non-iOS branch picks among [first :: rest]. *)
Definition backCamera (cameras : list Camera) : option Camera :=
  List.find isBackCamera cameras.

Definition selectCameraId (first : Camera) (rest : list Camera) : string :=
  match backCamera (first :: rest) with
  | Some backCamera => id backCamera
  | None => id first
  end.

(** [initializeScanner], after [await stopScanner()]: the constructor,
    then the call of [start] (iOS) or of [getCameras]. *)
Definition initializeScanner_afterStop (env : Env) (s : State) : Run :=
  match construct env with
  | Some err =>
      let s := log "Scanner initialization error:" s in
      let s := setError (classify err) s in
      let s := setIsCameraActive false s in
      (setIsLoading false s, None)
  | None =>
      let h := created s in
      let s := setCreated (S h) s in
      let s := setRef (Some h) s in
      if isIOS env then
        let s := log "iOS detected: Using direct facingMode approach" s in
        (s, Some (AwaitStart env h FacingEnvironment))
      else (s, Some (AwaitCameras env h))
  end.

(** [initializeScanner], after [await getCameras()]. *)
Definition initializeScanner_afterCameras (env : Env) (h : nat) (s : State)
  : Run :=
  match getCameras env with
  | CamerasRejected err => (cameraInitFailed s, None)
  | CamerasResolved cameras =>
      match cameras with
      | None | Some [] =>
          (* throw new Error('No cameras found') *)
          (cameraInitFailed s, None)
      | Some (first :: rest) =>
          let s := log "Available cameras:" s in
          let cameraId := selectCameraId first rest in
          let s := if backCamera (first :: rest) is Some _
                   then log "Selected back camera:" s else s in
          (s, Some (AwaitStart env h (DeviceId cameraId)))
      end
  end.

(** [initializeScanner], after [await html5QrCode.start(..)]. *)
Definition initializeScanner_afterStart (env : Env) (h : nat)
    (target : CameraTarget) (s : State) : Run :=
  match lib_start h target (start env) s with
  | Some s => (ready s, None)
  | None =>
      let s := record (StartFailed h target) s in
      (if isIOS env then iosStartFailed s else cameraInitFailed s, None)
  end.

(** [initializeScanner], up to its first [await] on the library. *)
Definition initializeScanner_begin (env : Env) (s : State) : Run :=
  let s := setIsLoading true s in
  let s := setError "" s in
  let s := setScanningTips "Initializing camera..." s in
  let s := setShowGuides false s in
  awaitStopScanner (ByInitializeScanner env)
    (initializeScanner_afterStop env) s.

(** The suspended call [t] is resumed: its promise has settled. *)
Definition resume (t : Suspension) (s : State) : Run :=
  match t with
  | AwaitStop caller =>
      let s := stopScanner_afterStop s in
      match caller with
      | ByCleanup => (s, None)
      | ByToggleCamera => (toggleCamera_afterStop s, None)
      | ByInitializeScanner env => initializeScanner_afterStop env s
      end
  | AwaitCameras env h => initializeScanner_afterCameras env h s
  | AwaitStart env h target => initializeScanner_afterStart env h target s
  end.

(** A call run to its end with nothing else in between: each promise it
    awaits settles before any other handler runs.  [fuel] bounds the
    number of suspensions. *)
Fixpoint complete (fuel : nat) (r : Run) : Run :=
  match r, fuel with
  | (s, Some t), S fuel' => complete fuel' (resume t s)
  | _, _ => r
  end.

(** [stopScanner], [toggleCamera] and [initializeScanner] run without
    interruption. *)
Definition stopScanner (s : State) : State :=
  (complete 1 (awaitStopScanner ByCleanup (fun s => (s, None)) s)).1.

Definition toggleCamera (s : State) : State :=
  (complete 1 (toggleCamera_begin s)).1.

Definition initializeScanner (env : Env) (s : State) : State :=
  (complete 3 (initializeScanner_begin env s)).1.

(** ** The mounted component *)

(** A handler returns or is suspended: in the latter case its call joins
    the pending ones. *)
Definition spawn (r : Run) : State :=
  match r with
  | (s, Some t) => setPending (pending s ++ [Some t]) s
  | (s, None) => s
  end.

(** The effect, which depends on [isCameraActive]: when that value has
    changed, the clean-up of the previous run removes its script element
    (which does not cancel the script's events) and calls [stopScanner()]
    without waiting for it, and the effect appends a new script whose
    [onload] closes over the new value. *)
Definition rerunEffect (s : State) : State :=
  let s := spawn (awaitStopScanner ByCleanup (fun s => (s, None)) s) in
  setScripts (scripts s ++ [mkScript (isCameraActive s) false]) s.

(** What can happen to the mounted component, one turn of the event loop
    each: the button is pressed; the load or error event of the [i]-th
    script is delivered ([env] tells what the platform will do during the
    call of [initializeScanner] this may start); the promise awaited by
    the [i]-th suspended call settles; the guides timer fires; the owner
    unmounts the component, which runs the clean-up of the effect; the
    running session reports a frame. *)
Inductive Action :=
| PressToggle
| ScriptLoaded (i : nat) (env : Env)
| ScriptFailed (i : nat)
| Settle (i : nat)
| TimerFired
| EffectCleanup
| FrameDecoded (decodedText : string)
| FrameFailed (errorMessage : string).

Definition handle (a : Action) (s : State) : State :=
  match a with
  | PressToggle =>
      (* the button is disabled while loading *)
      if isLoading s then s else spawn (toggleCamera_begin s)
  | ScriptLoaded i env =>
      match scripts s !! i with
      | Some (mkScript isCameraActive false) =>
          let s := setScripts
                     (<[ i := mkScript isCameraActive true ]> (scripts s)) s in
          let s := log "Scanner library loaded successfully" s in
          if isCameraActive then spawn (initializeScanner_begin env s) else s
      | _ => s
      end
  | ScriptFailed i =>
      match scripts s !! i with
      | Some (mkScript isCameraActive false) =>
          let s := setScripts
                     (<[ i := mkScript isCameraActive true ]> (scripts s)) s in
          let s := log "Failed to load scanner library" s in
          setError
            "Failed to load scanner library. Please check your internet connection and refresh the page."
            s
      | _ => s
      end
  | Settle i =>
      match pending s !! i with
      | Some (Some t) =>
          let r := resume t s in
          setPending (<[ i := r.2 ]> (pending r.1)) r.1
      | _ => s
      end
  | TimerFired =>
      match timers s with
      | S n => setShowGuides true (setTimers n s)
      | 0 => s
      end
  | EffectCleanup =>
      spawn (awaitStopScanner ByCleanup (fun s => (s, None)) s)
  | FrameDecoded decodedText =>
      if scanning s is [] then s else onScanSuccess decodedText s
  | FrameFailed errorMessage =>
      if scanning s is [] then s else onScanFailure errorMessage s
  end.

(** One turn: the handler, then the render it causes, which re-runs the
    effect when [isCameraActive] has changed. *)
Definition step (s : State) (a : Action) : State :=
  let rendered := isCameraActive s in
  let s := handle a s in
  if Bool.eqb rendered (isCameraActive s) then s else rerunEffect s.

Definition run (actions : list Action) : State := foldl step initial actions.

End WithCaseMapping.

(** The decoded texts handed to the owner so far. *)
Definition detections (s : State) : list string :=
  omap (fun e => if e is Detected t then Some t else None) (trace s).

(** A call of [initializeScanner] under [env] reaches a resolved
    [start]. *)
Definition starts (env : Env) : bool :=
  match construct env, start env with
  | None, None =>
      isIOS env ||
      match getCameras env with
      | CamerasResolved (Some (_ :: _)) => true
      | _ => false
      end
  | _, _ => false
  end.

(** The message both inner handlers of [initializeScanner] show, whatever
    was thrown. *)
Definition unclassified_message (ios : bool) : string :=
  if ios then "Failed to initialize camera. Please try again."
  else "Failed to initialize camera. Please check your camera permissions and try again.".

(** Platforms used in the examples. *)
Definition laptop : Env :=
  mkEnv false None
    (CamerasResolved (Some [mkCamera "cam0" "Integrated Webcam"])) None.

Definition rejecting (errorName : string) : Env :=
  mkEnv false None
    (CamerasResolved (Some [mkCamera "cam0" "Integrated Webcam"]))
    (Some (mkThrown (Some errorName) (Some "refused"))).

(** The Start button pressed three times (on, off, on) before the library
    script has arrived; the four scripts appended so far then load, in
    the order they were appended, and the two calls of
    [initializeScanner] this starts proceed side by side: both camera
    lists arrive, then both starts resolve. *)
Definition overlapping_starts : list Action :=
  [PressToggle; PressToggle; PressToggle;
   ScriptLoaded 0 laptop; ScriptLoaded 1 laptop;
   ScriptLoaded 2 laptop; ScriptLoaded 3 laptop;
   Settle 0; Settle 1; Settle 0; Settle 1].

End BarcodeScanner.

(* ===================================================================== *)
(** * Inventory page ([InventoryPage] in [inventory/page.tsx]) *)
(* ===================================================================== *)

Module InventoryPage.
Import Js.

(** The awaited result of a call to the access layer: the [data] of the
    response, or a rejection (after the retries of the layer). *)
Inductive Reply (A : Type) :=
| Resolved (data : A)
| Refused.
Arguments Resolved {A} data.
Arguments Refused {A}.

(** The calls a handler makes. *)
Inductive Request :=
| GetItems
| CreateItem (newItem : Object)
| UpdateItem (id : string) (updatedData : Object)
| DeleteItem (id : string).

(** What the remote service answers. *)
Record Server := mkServer {
  getItems : Reply (list Object);
  createItem : Object -> Reply Object;
  updateItem : string -> Object -> Reply Object;
  deleteItem : string -> Reply unit
}.

Record State := mkState {
  items : list Object;
  loading : bool;
  error : option string;
  showAddForm : bool;
  editingItem : option Object;
  showScanner : bool;
  scannedBarcode : option string
}.

(** The state of the page when it mounts. *)
Definition initial : State := mkState [] true None false None false None.

(** [fetchItems] *)
Definition fetchItems (server : Server) (s : State) : State * list Request :=
  match getItems server with
  | Resolved data =>
      (mkState data false None (showAddForm s) (editingItem s)
         (showScanner s) (scannedBarcode s), [GetItems])
  | Refused =>
      (mkState (items s) false
         (Some "Failed to load inventory items. Please try again.")
         (showAddForm s) (editingItem s) (showScanner s) (scannedBarcode s),
       [GetItems])
  end.

(** [item.id === id] *)
Definition has_id (id : string) (item : Object) : bool :=
  strict_eq (get item "id") (Str id).

(** [handleDeleteItem]; [confirmed] is the answer to [window.confirm]. *)
Definition handleDeleteItem (server : Server) (confirmed : bool)
    (id : string) (s : State) : State * list Request :=
  if negb confirmed then (s, [])
  else
    match deleteItem server id with
    | Resolved _ =>
        (mkState (List.filter (fun item => negb (has_id id item)) (items s))
           (loading s) None (showAddForm s) (editingItem s) (showScanner s)
           (scannedBarcode s), [DeleteItem id])
    | Refused =>
        (mkState (items s) (loading s)
           (Some "Failed to delete item. Please try again.")
           (showAddForm s) (editingItem s) (showScanner s)
           (scannedBarcode s), [DeleteItem id])
    end.

(** [handleBarcodeDetected] *)
Definition handleBarcodeDetected (barcode : string) (s : State) : State :=
  mkState (items s) (loading s) (error s) true (editingItem s) false
    (Some barcode).

(** The effect of [AddItemForm] on its [initialBarcode] property, which
    the page sets to [scannedBarcode]: a non-empty barcode is copied into
    the form. *)
Definition withInitialBarcode (initialBarcode : option string)
    (formData : Object) : Object :=
  match initialBarcode with
  | Some barcode =>
      if truthy (Str barcode) then <[ "barcode" := Str barcode ]> formData
      else formData
  | None => formData
  end.

(** A server that accepts every deletion, and one that refuses all calls. *)
Definition obliging : Server :=
  mkServer (Resolved []) (fun o => Resolved o) (fun _ o => Resolved o)
    (fun _ => Resolved tt).

Definition unreachable : Server :=
  mkServer Refused (fun _ => Refused) (fun _ _ => Refused) (fun _ => Refused).

Definition two_items : State :=
  mkState [ {[ "id" := Str "1"; "name" := Str "rice" ]};
            {[ "id" := Str "2"; "name" := Str "beans" ]} ]
    false None false None false None.

End InventoryPage.

(* ===================================================================== *)
(** * Dashboard ([DashboardPage]) *)
(* ===================================================================== *)

Module DashboardPage.

Inductive ExpiryStatus := expired | critical | warning | good.

(** [getExpiryStatus] *)
Definition getExpiryStatus (daysUntilExpiry : float) : ExpiryStatus :=
  if PrimFloat.ltb daysUntilExpiry 0 then expired
  else if PrimFloat.leb daysUntilExpiry 7 then critical
  else if PrimFloat.leb daysUntilExpiry 30 then warning
  else good.

(** The "Days Until Expiry" cell: the text 'Expired', or the number of
    days followed by ' days'. *)
Inductive DaysCell :=
| ExpiredText
| Days (daysUntilExpiry : float).

Definition daysCell (daysUntilExpiry : float) : DaysCell :=
  if PrimFloat.ltb daysUntilExpiry 0 then ExpiredText
  else Days daysUntilExpiry.

(** How urgent a status is. *)
Definition urgency (st : ExpiryStatus) : nat :=
  match st with
  | expired => 3
  | critical => 2
  | warning => 1
  | good => 0
  end.

End DashboardPage.

(* ===================================================================== *)
(** * Properties of the HTTP access layer *)
(* ===================================================================== *)

Module ApiProps.
Import Api.

Section Transport.

Variable net : nat -> Request -> Attempt.

(** An absent [retryCount] behaves as [0]. *)
Lemma api_unset_count fuel req w :
  api net fuel (mkConfig req None) w = api net fuel (mkConfig req (Some 0)) w.
Proof.
  destruct fuel as [|fuel]; [reflexivity|]. simpl.
  destruct (net (sent w) req) as [r|f]; [reflexivity|].
  unfold onRejected, raise; simpl.
  destruct (f_has_config f); reflexivity.
Qed.

(** [k] failed rounds, each carrying its configuration, leave [api]
    where it would be had it been called with the advanced counter. *)
Lemma api_rounds k : forall fuel req rc w,
  rc + k <= MAX_RETRIES ->
  (forall j, j < k -> fails_with_config net (sent w + j) req) ->
  api net (k + fuel) (mkConfig req (Some rc)) w =
  api net fuel (mkConfig req (Some (rc + k)))
      (mkWorld (sent w + k) (events w ++ retry_rounds (url req) rc k)).
Proof.
  induction k as [|k IH]; intros fuel req rc w Hle Hfail.
  - simpl. rewrite !Nat.add_0_r, app_nil_r. by destruct w.
  - destruct (Hfail 0) as (f & Hnet & Hcfg); [lia|].
    rewrite Nat.add_0_r in Hnet.
    change (S k + fuel) with (S (k + fuel)).
    cbn [api emit sent events request].
    rewrite Hnet. unfold onRejected, raise. rewrite Hcfg.
    cbn [config retryCount request default from_option id].
    assert (Hlt : (rc <? MAX_RETRIES) = true) by (apply Nat.ltb_lt; lia).
    rewrite Hlt. cbn [emit sent events].
    rewrite (Nat.add_1_r rc), IH.
    + cbn [sent events emit retry_rounds].
      replace (S rc + k) with (rc + S k) by lia.
      replace (S (sent w) + k) with (sent w + S k) by lia.
      by rewrite <- !app_assoc.
    + lia.
    + intros j Hj. cbn [sent emit].
      replace (S (sent w) + j) with (sent w + S j) by lia.
      apply Hfail. lia.
Qed.

(** Whatever the network does, an operation settles, after at most
    [S MAX_RETRIES] attempts, each logged, with one [RETRY_DELAY] sleep
    between consecutive attempts. *)
Lemma perform_total op :
  exists out w,
    perform net op = Some (out, w) /\
    1 <= sent w <= S MAX_RETRIES /\
    requests_logged w = sent w /\
    sleeps w = replicate (sent w - 1) RETRY_DELAY.
Proof.
  unfold perform. generalize (request_of op) as req. intros req.
  cbn [api emit sent events request MAX_RETRIES].
  repeat lazymatch goal with
  | |- context [match net ?n req with _ => _ end] =>
      destruct (net n req) as [?r|?f];
      [ eexists _, _; split; [reflexivity|];
        cbn; unfold MAX_RETRIES; repeat split; lia
      | unfold onRejected at 1, raise at 1;
        destruct (f_has_config _);
        cbn [config retryCount request default from_option id
             Nat.ltb Nat.leb MAX_RETRIES Nat.add emit sent events api];
        [ | eexists _, _; split; [reflexivity|];
            cbn; unfold MAX_RETRIES; repeat split; lia ] ]
  end.
  eexists _, _; split; [reflexivity|].
  cbn; unfold MAX_RETRIES; repeat split; lia.
Qed.

(** When the first [k <= MAX_RETRIES] attempts fail and the next one
    succeeds, the caller gets that response. *)
Lemma perform_success op k r :
  k <= MAX_RETRIES ->
  (forall j, j < k -> fails_with_config net j (request_of op)) ->
  net k (request_of op) = Responds r ->
  perform net op =
    Some (Fulfilled r,
          mkWorld (S k)
            (retry_rounds (url (request_of op)) 0 k ++
             [LogRequest (url (request_of op)); LogResponse (status r)])).
Proof.
  intros Hk Hfail Hok. unfold perform.
  rewrite api_unset_count.
  replace (S MAX_RETRIES) with (k + S (MAX_RETRIES - k)) by lia.
  rewrite api_rounds.
  2: { simpl. lia. }
  2: { intros j Hj. simpl. auto. }
  cbn [api emit sent events request Nat.add]. rewrite Hok.
  unfold emit. cbn [sent events app]. by rewrite <- app_assoc.
Qed.

(** When all [S MAX_RETRIES] attempts fail, the last failure [f] is
    surfaced once, with its message normalised. *)
Lemma perform_exhausted op f :
  (forall j, j < MAX_RETRIES -> fails_with_config net j (request_of op)) ->
  net MAX_RETRIES (request_of op) = Fails f ->
  f_has_config f = true ->
  perform net op =
    Some (Rejected
            (surfaced (request_of op) f
               (if code_is (f_code f) "ECONNABORTED" then timeout_message
                else if f_response f is None then network_message
                else f_message f)),
          mkWorld (S MAX_RETRIES)
            (retry_rounds (url (request_of op)) 0 MAX_RETRIES ++
             [LogRequest (url (request_of op)); LogFinalError])).
Proof.
  intros Hfail Hlast Hcfg. unfold perform.
  rewrite api_unset_count.
  replace (S MAX_RETRIES) with (MAX_RETRIES + 1) by lia.
  rewrite api_rounds.
  2: { simpl. lia. }
  2: { intros j Hj. simpl. auto. }
  cbn [api emit sent events request Nat.add]. rewrite Hlast.
  unfold onRejected, raise. rewrite Hcfg.
  cbn [config retryCount request default from_option id code response
       message emit sent events].
  rewrite Nat.ltb_irrefl. unfold surfaced, emit.
  cbn [sent events app]. by rewrite <- app_assoc.
Qed.

End Transport.

Lemma code_is_eq c s : code_is c s = true <-> c = Some s.
Proof.
  destruct c as [c|]; simpl; [|split; [discriminate|discriminate]].
  rewrite String.eqb_eq. split; [by intros ->|by intros [= ->]].
Qed.

Lemma code_is_neq c s : c <> Some s -> code_is c s = false.
Proof.
  intros Hne. destruct (code_is c s) eqn:E; [|reflexivity].
  by apply code_is_eq in E.
Qed.

(** An error without configuration at the very first attempt ends the
    operation after that single attempt, unchanged. *)
Lemma perform_no_config net op f :
  net 0 (request_of op) = Fails f ->
  f_has_config f = false ->
  perform net op =
    Some (Rejected (mkError (f_code f) (f_response f) (f_message f) None),
          mkWorld 1 [LogRequest (url (request_of op))]).
Proof.
  intros Hnet Hcfg. unfold perform.
  cbn [api emit sent events request app]. rewrite Hnet.
  unfold onRejected, raise. by rewrite Hcfg.
Qed.

(** C1. Every operation of the access layer (list, create, update,
    delete, lookup by barcode) settles after at most [S MAX_RETRIES = 4]
    underlying attempts, with one [RETRY_DELAY = 1000] ms sleep between
    consecutive attempts; and when the first [k <= 3] attempts fail,
    whatever their cause (any code, with or without a response), and the
    next one succeeds, the operation is fulfilled with that response and
    no error is surfaced. *)
Theorem retry_policy net op :
  S MAX_RETRIES = 4 /\ RETRY_DELAY = 1000 /\
  (exists out w,
     perform net op = Some (out, w) /\
     1 <= sent w <= S MAX_RETRIES /\
     requests_logged w = sent w /\
     sleeps w = replicate (sent w - 1) RETRY_DELAY) /\
  (forall k r,
     k <= MAX_RETRIES ->
     (forall j, j < k -> fails_with_config net j (request_of op)) ->
     net k (request_of op) = Responds r ->
     perform net op =
       Some (Fulfilled r,
             mkWorld (S k)
               (retry_rounds (url (request_of op)) 0 k ++
                [LogRequest (url (request_of op));
                 LogResponse (status r)]))).
Proof.
  split; [reflexivity|]. split; [reflexivity|]. split.
  - apply perform_total.
  - intros k r Hk Hfail Hok. by apply perform_success.
Qed.

Lemma retry_policy_witness :
  3 <= MAX_RETRIES /\
  (forall j, j < 3 -> fails_with_config flaky_net j (request_of getAllItems)) /\
  perform flaky_net getAllItems =
    Some (Fulfilled (mkResponse 200 "[]"),
          mkWorld 4
            [LogRequest ""; LogRetry 1; Sleep 1000;
             LogRequest ""; LogRetry 2; Sleep 1000;
             LogRequest ""; LogRetry 3; Sleep 1000;
             LogRequest ""; LogResponse 200]).
Proof.
  assert (H3 : 3 <= MAX_RETRIES) by (unfold MAX_RETRIES; lia).
  assert (Hf : forall j, j < 3 ->
                 fails_with_config flaky_net j (request_of getAllItems)).
  { intros j Hj. destruct j as [|[|[|j]]]; [| | |lia];
      eexists; split; reflexivity. }
  split; [exact H3|]. split; [exact Hf|].
  exact (proj2 (proj2 (proj2 (retry_policy flaky_net getAllItems)))
           3 (mkResponse 200 "[]") H3 Hf eq_refl).
Defined.

(** C2. When all four attempts of an operation fail, exactly one error is
    surfaced, after exactly four attempts; it is the last failure, with
    the message "Request timed out. Please check if the server is
    running." when its code is ECONNABORTED, otherwise the message
    "Network error. Please check your connection and if the server is
    running." when no response was received, otherwise its own message
    unchanged. *)
Theorem exhausted_retries_surface_one_error net op f :
  (forall j, j < MAX_RETRIES -> fails_with_config net j (request_of op)) ->
  net MAX_RETRIES (request_of op) = Fails f ->
  f_has_config f = true ->
  exists e w,
    perform net op = Some (Rejected e, w) /\
    sent w = 4 /\ final_errors w = 1 /\
    code e = f_code f /\ response e = f_response f /\
    (f_code f = Some "ECONNABORTED" ->
       message e
       = "Request timed out. Please check if the server is running.") /\
    (f_code f <> Some "ECONNABORTED" -> f_response f = None ->
       message e
       = "Network error. Please check your connection and if the server is running.") /\
    (f_code f <> Some "ECONNABORTED" -> f_response f <> None ->
       message e = f_message f).
Proof.
  intros Hfail Hlast Hcfg.
  eexists _, _. split; [by apply perform_exhausted|].
  cbn [sent events surfaced code response message].
  repeat split.
  - intros Hc. apply code_is_eq in Hc. by rewrite Hc.
  - intros Hc Hr. by rewrite (code_is_neq _ _ Hc), Hr.
  - intros Hc Hr. rewrite (code_is_neq _ _ Hc).
    by destruct (f_response f).
Qed.

(** The three kinds of final failure: a timeout, a network that is down,
    and a server error, each on all four attempts. *)
Lemma exhausted_retries_witness :
  (exists e w,
     perform timeout_net getAllItems = Some (Rejected e, w) /\
     sent w = 4 /\ final_errors w = 1 /\
     message e = "Request timed out. Please check if the server is running.")
  /\
  (exists e w,
     perform offline_net (createItem "{}") = Some (Rejected e, w) /\
     sent w = 4 /\ final_errors w = 1 /\
     message e
     = "Network error. Please check your connection and if the server is running.")
  /\
  (exists e w,
     perform broken_net (deleteItem "42") = Some (Rejected e, w) /\
     sent w = 4 /\ final_errors w = 1 /\
     message e = "Request failed with status code 500").
Proof.
  split; [|split].
  - destruct (exhausted_retries_surface_one_error timeout_net getAllItems
                error_timeout)
      as (e & w & Hrun & Hsent & Hone & _ & _ & Hmsg & _).
    + intros j _. eexists; split; reflexivity.
    + reflexivity.
    + reflexivity.
    + exists e, w. repeat split; try assumption. by apply Hmsg.
  - destruct (exhausted_retries_surface_one_error offline_net
                (createItem "{}") error_offline)
      as (e & w & Hrun & Hsent & Hone & _ & _ & _ & Hmsg & _).
    + intros j _. eexists; split; reflexivity.
    + reflexivity.
    + reflexivity.
    + exists e, w. repeat split; try assumption.
      apply Hmsg; [discriminate|reflexivity].
  - destruct (exhausted_retries_surface_one_error broken_net
                (deleteItem "42") error_500)
      as (e & w & Hrun & Hsent & Hone & _ & _ & _ & _ & Hmsg).
    + intros j _. eexists; split; reflexivity.
    + reflexivity.
    + reflexivity.
    + exists e, w. repeat split; try assumption.
      apply Hmsg; discriminate.
Defined.

(** C10. An error that reaches the rejection handler without a request
    configuration is rejected as it is: the retry continuation is not
    called, nothing is slept or logged, and neither the message nor any
    other field changes. *)
Theorem error_without_config_rejected_immediately retry error w :
  config error = None ->
  onRejected retry error w = Some (Rejected error, w).
Proof.
  intros Hcfg. unfold onRejected. by rewrite Hcfg.
Qed.

Lemma error_without_config_witness :
  onRejected (api flaky_net 4)
    (mkError (Some "ECONNABORTED") None "boom" None) (mkWorld 0 []) =
  Some (Rejected (mkError (Some "ECONNABORTED") None "boom" None),
        mkWorld 0 []).
Proof.
  apply (error_without_config_rejected_immediately (api flaky_net 4)).
  reflexivity.
Defined.

End ApiProps.

(* ===================================================================== *)
(** * Properties of the form reconcilers *)
(* ===================================================================== *)

Module JsProps.
Import Js.

Lemma strict_eq_Str v s : strict_eq v (Str s) = true <-> v = Str s.
Proof.
  destruct v; simpl; try (split; discriminate).
  rewrite String.eqb_eq. split; [by intros ->|by intros [= ->]].
Qed.

Lemma strict_eq_Undefined v : strict_eq v Undefined = true <-> v = Undefined.
Proof. destruct v; simpl; split; (discriminate || reflexivity). Qed.

Lemma strict_eq_Null v : strict_eq v Null = true <-> v = Null.
Proof. destruct v; simpl; split; (discriminate || reflexivity). Qed.

Lemma strict_eq_Str_false v s : v <> Str s -> strict_eq v (Str s) = false.
Proof.
  intros Hne. destruct (strict_eq v (Str s)) eqn:E; [|reflexivity].
  by apply strict_eq_Str in E.
Qed.

Lemma strict_eq_Undefined_false v :
  v <> Undefined -> strict_eq v Undefined = false.
Proof. by destruct v. Qed.

Lemma strict_eq_Null_false v : v <> Null -> strict_eq v Null = false.
Proof. by destruct v. Qed.

(** A [forEach] whose callback either leaves the accumulator alone or
    assigns its own key: the result at [k] is decided by the entry at [k]
    alone. *)
Lemma forEach_own_key (step : string -> Value -> Object -> Object)
    (m : Object) :
  (forall k v, (forall acc, step k v acc = acc) \/
               (exists x, forall acc, step k v acc = <[k:=x]> acc)) ->
  forall k, map_fold step ∅ m !! k = m !! k ≫= (fun v => step k v ∅ !! k).
Proof.
  intros Hstep.
  apply (map_fold_weak_ind
           (fun r m => forall k, r !! k = m !! k ≫= (fun v => step k v ∅ !! k))).
  - intros k. by rewrite !lookup_empty.
  - intros i x m' r Hnone IH k.
    destruct (Hstep i x) as [Hskip|[y Hset]].
    + rewrite Hskip, IH. destruct (decide (k = i)) as [->|Hne].
      * rewrite lookup_insert_eq, Hnone. simpl. by rewrite Hskip, lookup_empty.
      * by rewrite lookup_insert_ne.
    + rewrite Hset. destruct (decide (k = i)) as [->|Hne].
      * rewrite !lookup_insert_eq. simpl. by rewrite Hset, lookup_insert_eq.
      * rewrite !lookup_insert_ne by done. apply IH.
Qed.

End JsProps.

Module AddItemFormProps.
Import Js JsProps AddItemForm.

Section WithConversions.
Context {conv : Conversions}.

Lemma addEntry_own_key k v :
  (forall acc, addEntry k v acc = acc) \/
  (exists x, forall acc, addEntry k v acc = <[k:=x]> acc).
Proof.
  unfold addEntry.
  destruct (strict_eq v (Str "") || strict_eq v Undefined || strict_eq v Null);
    [by left|].
  destruct (isNumericKey k); [|right; eauto].
  destruct (negb (isNaN (ToNumber v)) && PrimFloat.ltb 0 (ToNumber v));
    [right; eauto|by left].
Qed.

Lemma created_lookup formData k :
  dataToSend formData !! k = formData !! k ≫= (fun v => addEntry k v ∅ !! k).
Proof. apply forEach_own_key, addEntry_own_key. Qed.

(** An empty value is left out, whatever the field. *)
Lemma dataToSend_omits_empty formData k v :
  formData !! k = Some v ->
  v = Str "" \/ v = Undefined \/ v = Null ->
  dataToSend formData !! k = None.
Proof.
  intros Hk Hv. rewrite created_lookup, Hk. simpl.
  unfold addEntry. by destruct Hv as [->|[->| ->]].
Qed.

(** A numeric field is sent exactly when its value is not empty and its
    coercion is neither NaN nor at most zero; what is sent is the number. *)
Lemma dataToSend_numeric formData k x :
  isNumericKey k = true ->
  dataToSend formData !! k = Some x <->
  exists v, formData !! k = Some v /\
            v <> Str "" /\ v <> Undefined /\ v <> Null /\
            isNaN (ToNumber v) = false /\
            PrimFloat.ltb 0 (ToNumber v) = true /\
            x = Num (ToNumber v).
Proof.
  intros Hnum. rewrite created_lookup. split.
  - destruct (formData !! k) as [v|]; [simpl|discriminate].
    unfold addEntry. rewrite Hnum.
    destruct v as [| |s|n]; simpl; try (rewrite lookup_empty; discriminate).
    + destruct (String.eqb s "") eqn:Hs; simpl;
        [rewrite lookup_empty; discriminate|].
      destruct (isNaN (StringToNumber s)) eqn:Hnan; simpl;
        [rewrite lookup_empty; discriminate|].
      destruct (PrimFloat.ltb 0 (StringToNumber s)) eqn:Hpos;
        [|rewrite lookup_empty; discriminate].
      rewrite lookup_insert_eq. intros [= <-].
      exists (Str s). repeat split; try done.
      intros [= ->]. discriminate.
    + destruct (isNaN n) eqn:Hnan; simpl;
        [rewrite lookup_empty; discriminate|].
      destruct (PrimFloat.ltb 0 n) eqn:Hpos;
        [|rewrite lookup_empty; discriminate].
      rewrite lookup_insert_eq. intros [= <-].
      exists (Num n). by repeat split.
  - intros (v & -> & Hs & Hu & Hn & Hnan & Hpos & ->). simpl.
    unfold addEntry.
    rewrite (strict_eq_Str_false _ _ Hs), (strict_eq_Undefined_false _ Hu),
      (strict_eq_Null_false _ Hn), Hnum, Hnan, Hpos. simpl.
    by rewrite lookup_insert_eq.
Qed.

(** Any other field that is not empty is sent as a string. *)
Lemma dataToSend_text formData k v :
  isNumericKey k = false ->
  formData !! k = Some v ->
  v <> Str "" -> v <> Undefined -> v <> Null ->
  dataToSend formData !! k = Some (Str (ToString v)).
Proof.
  intros Hnum Hk Hs Hu Hn. rewrite created_lookup, Hk. simpl.
  unfold addEntry.
  rewrite (strict_eq_Str_false _ _ Hs), (strict_eq_Undefined_false _ Hu),
    (strict_eq_Null_false _ Hn), Hnum. simpl.
  by rewrite lookup_insert_eq.
Qed.

(** C3, as amended. In creation mode a field whose value is the empty
    string, [undefined] or [null] is left out of the change-set, and so is
    a field the working copy does not have; [quantity] and [price] are
    sent exactly when their coerced value is not NaN and is strictly
    greater than zero (positive infinity included), as that number; every
    other non-empty field is sent coerced to a string; and the working
    copy [{name: "", price: 0, quantity: 5}] yields [{quantity: 5}]. *)
Theorem create_change_set formData k :
  (forall v, formData !! k = Some v ->
             v = Str "" \/ v = Undefined \/ v = Null ->
             dataToSend formData !! k = None) /\
  (formData !! k = None -> dataToSend formData !! k = None) /\
  (isNumericKey k = true ->
   forall x,
     dataToSend formData !! k = Some x <->
     exists v, formData !! k = Some v /\
               v <> Str "" /\ v <> Undefined /\ v <> Null /\
               isNaN (ToNumber v) = false /\
               PrimFloat.ltb 0 (ToNumber v) = true /\
               x = Num (ToNumber v)) /\
  (isNumericKey k = false ->
   forall v, formData !! k = Some v ->
             v <> Str "" -> v <> Undefined -> v <> Null ->
             dataToSend formData !! k = Some (Str (ToString v))) /\
  dataToSend example_form = {[ "quantity" := Num 5%float ]}.
Proof.
  split; [intros v; apply dataToSend_omits_empty|].
  split; [intros Hk; by rewrite created_lookup, Hk|].
  split; [intros Hnum x; by apply dataToSend_numeric|].
  split; [intros Hnum v; by apply dataToSend_text|].
  reflexivity.
Qed.

End WithConversions.

(** The claim's "finite" fails on the code: a price of positive infinity
    is not a finite number, yet it is kept in the change-set. *)
Lemma create_keeps_infinite_price :
  isNumericKey "price" = true /\
  isFinite (ToNumber (conv := no_conversions) (Num infinity)) = false /\
  dataToSend (conv := no_conversions) infinite_price_form !! "price"
    = Some (Num infinity).
Proof. repeat split; reflexivity. Qed.

End AddItemFormProps.

Module EditItemFormProps.
Import Js JsProps EditItemForm.

Section WithConversions.
Context {conv : Conversions}.

Lemma editEntry_own_key item k v :
  (forall acc, editEntry item k v acc = acc) \/
  (exists x, forall acc, editEntry item k v acc = <[k:=x]> acc).
Proof.
  unfold editEntry.
  destruct (isNumericKey k), (strict_eq v (Str ""));
    try (destruct (negb (strict_eq (get item k) Undefined));
         [right; eauto|by left]).
  - destruct (negb (strict_eq v Undefined)); [|by left].
    destruct (negb (strict_eq (Num (ToNumber v)) (get item k)));
      [right; eauto|by left].
  - destruct (negb (strict_eq v (get item k))); [right; eauto|by left].
Qed.

Lemma edited_lookup item formData k :
  dataToSend item formData !! k =
  formData !! k ≫= (fun v => editEntry item k v ∅ !! k).
Proof. apply forEach_own_key, editEntry_own_key. Qed.

(** A working value that is the empty string clears the field when the
    original is defined and is left out otherwise, for numeric and text
    fields alike. *)
Lemma empty_string_clears item formData k :
  formData !! k = Some (Str "") ->
  (get item k <> Undefined -> dataToSend item formData !! k = Some Undefined)
  /\ (get item k = Undefined -> dataToSend item formData !! k = None).
Proof.
  intros Hk. rewrite edited_lookup, Hk. simpl. unfold editEntry.
  split.
  - intros Hdef. rewrite (strict_eq_Undefined_false _ Hdef). simpl.
    destruct (isNumericKey k); by rewrite lookup_insert_eq.
  - intros ->. simpl. by destruct (isNumericKey k).
Qed.

(** The example of the edit mode: emptying the category of
    [{price: 10, category: "food"}] submits exactly the clear marker for
    [category]. *)
Lemma emptied_category_is_cleared :
  handleSubmit food_item
    (handleChange "category" "" (initialFormData food_item))
  = CallUpdateItem (Str "1") {[ "category" := Undefined ]}.
Proof. reflexivity. Qed.

(** A numeric field whose working value is [undefined] is left out,
    whatever the original. *)
Lemma undefined_number_is_dropped item formData k :
  isNumericKey k = true ->
  formData !! k = Some Undefined ->
  dataToSend item formData !! k = None.
Proof.
  intros Hnum Hk. rewrite edited_lookup, Hk. simpl.
  unfold editEntry. by rewrite Hnum.
Qed.

(** C4, on the code. The price of [{id: "1", price: 10}] is emptied in the
    form: [handleChange] stores [undefined] for it, the reconciler then
    leaves [price] out instead of marking it cleared, the change-set is
    empty and the form reports that nothing changed. *)
Theorem emptied_price_is_not_cleared :
  get priced_item "price" = Num 10%float /\
  handleChange "price" "" (initialFormData priced_item) !! "price"
    = Some Undefined /\
  dataToSend priced_item
    (handleChange "price" "" (initialFormData priced_item)) !! "price"
    = None /\
  handleSubmit priced_item
    (handleChange "price" "" (initialFormData priced_item))
  = ShowError "No changes were made to the item".
Proof. repeat split; reflexivity. Qed.

(** With an empty change-set nothing is submitted. *)
Lemma empty_change_set_rejected item formData :
  dataToSend item formData = ∅ ->
  handleSubmit item formData =
    ShowError (if truthy (get item "id")
               then "No changes were made to the item"
               else "Item ID is missing").
Proof.
  intros Hempty. unfold handleSubmit. rewrite Hempty, map_size_empty.
  by destruct (truthy (get item "id")).
Qed.

Lemma is_nan_false_eqb n : is_nan n = false -> PrimFloat.eqb n n = true.
Proof. unfold is_nan. by destruct (PrimFloat.eqb n n). Qed.

(** The untouched form of a plain record has nothing to submit. *)
Lemma untouched_form_is_empty item :
  plain_item item = true ->
  dataToSend item (initialFormData item) = ∅.
Proof.
  unfold plain_item. intros Hplain.
  repeat (apply andb_true_iff in Hplain as [Hplain ?]).
  apply map_eq. intros k. rewrite lookup_empty, edited_lookup.
  destruct (initialFormData item !! k) as [v|] eqn:Hk; [simpl|done].
  unfold initialFormData in Hk.
  repeat (apply lookup_insert_Some in Hk as [[<- <-]|[_ Hk]]);
    try (apply lookup_singleton_Some in Hk as [<- <-]);
    unfold editEntry, or_else; cbn [isNumericKey String.eqb Ascii.eqb
                                     Bool.eqb orb];
    lazymatch goal with
    | H : is_text (get item ?key) = true |- context [get item ?key] =>
        destruct (get item key) as [| |s|n]; try discriminate; simpl in *;
        [ done
        | destruct (String.eqb s "") eqn:Hs; [discriminate|];
          simpl; by rewrite Hs, String.eqb_refl ]
    | H : is_number (get item ?key) = true |- context [get item ?key] =>
        destruct (get item key) as [| |s|n]; try discriminate; simpl in *;
        [ done
        | apply negb_true_iff, is_nan_false_eqb in H; by rewrite H ]
    end.
Qed.

(** The update operation is only ever called with a change-set that is
    not empty. *)
Lemma update_call_carries_changes item formData id data :
  handleSubmit item formData = CallUpdateItem id data ->
  data = dataToSend item formData /\ data <> ∅.
Proof.
  unfold handleSubmit.
  destruct (negb (truthy (get item "id"))); [discriminate|].
  destruct (size (dataToSend item formData) =? 0) eqn:Hsize;
    [discriminate|].
  intros [= _ <-]. split; [done|]. intros Hempty.
  by rewrite Hempty, map_size_empty in Hsize.
Qed.

(** The untouched form of a plain record that has an id reports that no
    changes were made. *)
Lemma untouched_plain_form_is_rejected item :
  plain_item item = true ->
  truthy (get item "id") = true ->
  handleSubmit item (initialFormData item) =
    ShowError "No changes were made to the item".
Proof.
  intros Hplain Hid.
  rewrite (empty_change_set_rejected item (initialFormData item))
    by by apply untouched_form_is_empty.
  by rewrite Hid.
Qed.

(** C5, on the code. The edit form of [{id: "1", name: ""}] is submitted
    untouched: the working name is the original name, the empty string,
    and yet [handleSubmit] calls [updateItem("1", {name: undefined})]
    instead of reporting that no changes were made. Likewise the
    untouched form of [{id: "1", price: null}] holds the original price
    and [handleSubmit] calls [updateItem("1", {price: 0})]. *)
Theorem untouched_form_is_submitted :
  get unnamed_item "name" = Str "" /\
  initialFormData unnamed_item !! "name" = Some (Str "") /\
  handleSubmit unnamed_item (initialFormData unnamed_item)
  = CallUpdateItem (Str "1") {[ "name" := Undefined ]} /\
  get null_price_item "price" = Null /\
  initialFormData null_price_item !! "price" = Some Null /\
  handleSubmit null_price_item (initialFormData null_price_item)
  = CallUpdateItem (Str "1") {[ "price" := Num 0%float ]}.
Proof. repeat split; reflexivity. Qed.

End WithConversions.

End EditItemFormProps.

(* ===================================================================== *)
(** * Properties of the image lookup *)
(* ===================================================================== *)

Module ImageLookupProps.
Import ImageLookup.

Section Catalog.

Variable fetch : string -> FetchOutcome.

(** The lookup never throws. *)
Lemma getProductImage_returns barcode :
  exists v, getProductImage fetch barcode = Return v.
Proof.
  unfold getProductImage, tryCatch.
  match goal with |- context [match ?body with _ => _ end] =>
    destruct body; eauto end.
Qed.

(** A request that fails, or a body that is not JSON, yields [null]. *)
Lemma no_document_yields_null barcode :
  fetch (catalog_url barcode) = FetchRejected \/
  fetch (catalog_url barcode) = BodyNotJson ->
  getProductImage fetch barcode = Return Null.
Proof.
  intros Hfetch. unfold getProductImage, fetch_json.
  by destruct Hfetch as [-> | ->].
Qed.

(** A document whose [status] is not [1] (or that has none, or that is
    not an object at all) yields [null]. *)
Lemma not_found_yields_null barcode data :
  fetch (catalog_url barcode) = Parsed data ->
  (forall status, member data "status" = Return status ->
                  is_one status = false) ->
  getProductImage fetch barcode = Return Null.
Proof.
  intros Hfetch Hstatus. unfold getProductImage, fetch_json.
  rewrite Hfetch. unfold mbind, completion_bind. cbn [bind].
  destruct (member data "status") as [status|what] eqn:Hm; [|done].
  cbn [bind]. by rewrite (Hstatus status).
Qed.

(** A found product without a [product] member yields [null]. *)
Lemma missing_product_yields_null barcode members :
  fetch (catalog_url barcode) = Parsed (Obj members) ->
  members !! "status" = Some (Num 1%float) ->
  members !! "product" = None \/ members !! "product" = Some Null ->
  getProductImage fetch barcode = Return Null.
Proof.
  intros Hfetch Hstatus Hproduct. unfold getProductImage, fetch_json.
  rewrite Hfetch. unfold mbind, completion_bind. cbn [bind member].
  rewrite Hstatus. cbn [default from_option id is_one bind].
  replace (PrimFloat.eqb 1 1) with true by reflexivity.
  by destruct Hproduct as [-> | ->].
Qed.

(** A found product yields its front image when that is truthy, and
    otherwise whatever its generic image member holds. *)
Lemma found_yields_image barcode members product :
  fetch (catalog_url barcode) = Parsed (Obj members) ->
  members !! "status" = Some (Num 1%float) ->
  members !! "product" = Some (Obj product) ->
  getProductImage fetch barcode =
    Return (if truthy (default Undefined (product !! "image_front_url"))
            then default Undefined (product !! "image_front_url")
            else default Undefined (product !! "image_url")).
Proof.
  intros Hfetch Hstatus Hproduct. unfold getProductImage, fetch_json.
  rewrite Hfetch. unfold mbind, completion_bind. cbn [bind member].
  rewrite Hstatus. cbn [default from_option id is_one bind].
  replace (PrimFloat.eqb 1 1) with true by reflexivity.
  rewrite Hproduct. cbn [default from_option id bind member].
  by destruct (truthy _).
Qed.

End Catalog.

(** A [status: 0] answer yields [null]. *)
Lemma status_zero_yields_null barcode :
  getProductImage (fun _ => Parsed not_found_answer) barcode = Return Null.
Proof. reflexivity. Qed.

(** The front image is preferred. *)
Lemma front_image_preferred barcode :
  getProductImage (fun _ => Parsed found_answer) barcode
  = Return (Str "https://img/front.jpg").
Proof. reflexivity. Qed.

(** C6, on the code. A product the catalog knows ([status: 1]) but that
    carries no image member: the lookup returns [undefined], which is
    neither an image URL nor the not-found result [null]. *)
Theorem found_without_image_yields_undefined barcode :
  getProductImage (fun _ => Parsed found_without_image) barcode
    = Return Undefined /\
  Return Undefined <> Return Null.
Proof. split; [reflexivity|discriminate]. Qed.

End ImageLookupProps.
(* ===================================================================== *)
(** * Properties of the scanner adapter *)
(* ===================================================================== *)

Module BarcodeScannerProps.
Import BarcodeScanner.

(** Evaluates the state setters under the projections, by need. *)
Ltac setters :=
  cbn [ready iosStartFailed cameraInitFailed lib_start
       toggleCamera_afterStop stopScanner_afterStop
       setError setIsCameraActive setIsLoading setScanningTips setShowGuides
       setRef setScanning setCreated record log setScripts setPending
       setTimers
       error isCameraActive isLoading scanningTips showGuides html5QrCodeRef
       scanning created trace console scripts pending timers fst snd] in *.

Section WithCaseMapping.
Context {cm : CaseMapping}.

Lemma complete_returned fuel s : complete fuel (s, None) = (s, None).
Proof. by destruct fuel. Qed.

(** Two suspensions are all that is left after [stopScanner]. *)
Lemma afterStop_fuel env s :
  complete 3 (initializeScanner_afterStop env s)
  = complete 2 (initializeScanner_afterStop env s).
Proof.
  unfold initializeScanner_afterStop. cbv zeta.
  destruct (construct env); [done|].
  destruct (isIOS env) eqn:Hios.
  - cbn [complete resume]. unfold initializeScanner_afterStart.
    destruct (lib_start _ _ _ _); by rewrite ?Hios.
  - cbn [complete resume]. unfold initializeScanner_afterCameras.
    destruct (getCameras env) as [err|[[|first rest]|]]; try done.
    cbv zeta. cbn [complete resume]. unfold initializeScanner_afterStart.
    destruct (lib_start _ _ _ _); by rewrite ?Hios.
Qed.

(** An uninterrupted [initializeScanner] is an uninterrupted
    [stopScanner] followed by the rest. *)
Lemma initializeScanner_unfold env s :
  complete 3 (initializeScanner_begin env s)
  = complete 2
      (initializeScanner_afterStop env
         (stopScanner
            (setShowGuides false
               (setScanningTips "Initializing camera..."
                  (setError "" (setIsLoading true s)))))).
Proof.
  unfold initializeScanner_begin, stopScanner, awaitStopScanner. cbv zeta.
  destruct (stopScanner_begin _) as [t|t].
  - reflexivity.
  - rewrite complete_returned. apply afterStop_fuel.
Qed.

(** Three suspensions are enough for [initializeScanner] to return, and
    one for [toggleCamera] and [stopScanner]. *)
Lemma initializeScanner_returns env s :
  (complete 3 (initializeScanner_begin env s)).2 = None.
Proof.
  rewrite initializeScanner_unfold.
  set (t := stopScanner _). clearbody t.
  unfold initializeScanner_afterStop. cbv zeta.
  destruct (construct env); [done|].
  destruct (isIOS env) eqn:Hios.
  - cbn [complete resume]. unfold initializeScanner_afterStart.
    by destruct (lib_start _ _ _ _).
  - cbn [complete resume]. unfold initializeScanner_afterCameras.
    destruct (getCameras env) as [err|[[|first rest]|]]; try done.
    cbv zeta. cbn [complete resume]. unfold initializeScanner_afterStart.
    by destruct (lib_start _ _ _ _).
Qed.

Lemma toggleCamera_returns s : (complete 1 (toggleCamera_begin s)).2 = None.
Proof.
  unfold toggleCamera_begin, awaitStopScanner.
  destruct (isCameraActive s); [|done].
  by destruct (stopScanner_begin s).
Qed.

Lemma stopScanner_returns s :
  (complete 1 (awaitStopScanner ByCleanup (fun s => (s, None)) s)).2 = None.
Proof. unfold awaitStopScanner. by destruct (stopScanner_begin s). Qed.

(** C8. A per-frame decode failure leaves the component as it is: the
    camera stays active, the session keeps running and is not stopped, no
    error is shown, and no decoded value is handed to the owner; when the
    message is the "No barcode or QR code found" one, nothing at all
    happens (any other message is only written to the console). *)
Theorem frame_failure_keeps_scanning s errorMessage :
  isCameraActive (step s (FrameFailed errorMessage)) = isCameraActive s /\
  scanning (step s (FrameFailed errorMessage)) = scanning s /\
  html5QrCodeRef (step s (FrameFailed errorMessage)) = html5QrCodeRef s /\
  error (step s (FrameFailed errorMessage)) = error s /\
  trace (step s (FrameFailed errorMessage)) = trace s /\
  detections (step s (FrameFailed errorMessage)) = detections s /\
  (includes errorMessage "No barcode or QR code found" = true ->
   onScanFailure errorMessage s = s /\
   step s (FrameFailed errorMessage) = s).
Proof.
  assert (Hstep : step s (FrameFailed errorMessage)
                  = if scanning s is [] then s
                    else onScanFailure errorMessage s).
  { unfold step. cbn [handle]. unfold onScanFailure.
    destruct (scanning s);
      destruct (includes errorMessage "No barcode or QR code found");
      setters; by rewrite Bool.eqb_reflx. }
  rewrite Hstep. unfold onScanFailure, detections.
  destruct (scanning s) eqn:Hs;
    destruct (includes errorMessage "No barcode or QR code found");
    setters; rewrite ?Hs; by repeat split.
Qed.

(** A decoded frame is handed to the owner exactly once. *)
Lemma frame_decoded_emits_once s decodedText :
  scanning s <> [] ->
  detections (step s (FrameDecoded decodedText))
  = detections s ++ [decodedText].
Proof.
  intros Hrun. unfold step. cbn [handle]. destruct (scanning s); [done|].
  unfold detections, onScanSuccess, handleBarcodeDetected. setters.
  rewrite Bool.eqb_reflx. setters. by rewrite omap_app.
Qed.

(** Once the instance is constructed, every failure on the way to a
    running session is reported with one fixed message per branch: what
    was thrown is not looked at. *)
Lemma inner_failure_message env s :
  construct env = None ->
  starts env = false ->
  error (initializeScanner env s) = unclassified_message (isIOS env) /\
  isCameraActive (initializeScanner env s) = false /\
  isLoading (initializeScanner env s) = false.
Proof.
  unfold initializeScanner. rewrite initializeScanner_unfold.
  set (t := stopScanner _). clearbody t.
  unfold starts, initializeScanner_afterStop. cbv zeta.
  intros -> Hfail.
  destruct (isIOS env) eqn:Hios.
  - cbn [complete resume]. unfold initializeScanner_afterStart.
    destruct (start env); [|discriminate]. rewrite Hios. by setters.
  - cbn [complete resume]. unfold initializeScanner_afterCameras.
    destruct (getCameras env) as [err|[[|first rest]|]]; try by setters.
    destruct (start env) eqn:Hstart; [|discriminate].
    cbv zeta. cbn [complete resume]. unfold initializeScanner_afterStart.
    rewrite Hstart, Hios.
    destruct (backCamera (first :: rest)); by setters.
Qed.

(** The same holds of a start that is rejected after other handlers have
    run in between: the call resumes in its inner handler. *)
Lemma rejected_start_message env h target err s :
  start env = Some err ->
  error (resume (AwaitStart env h target) s).1
    = unclassified_message (isIOS env) /\
  isCameraActive (resume (AwaitStart env h target) s).1 = false /\
  isLoading (resume (AwaitStart env h target) s).1 = false.
Proof.
  intros Hstart. cbn [resume]. unfold initializeScanner_afterStart.
  rewrite Hstart. by destruct (isIOS env); setters.
Qed.

(** The outer handler does classify, but it is reached only when the
    constructor throws. *)
Lemma constructor_failure_is_classified env s err :
  construct env = Some err ->
  error (initializeScanner env s) = classify err.
Proof.
  unfold initializeScanner. rewrite initializeScanner_unfold.
  unfold initializeScanner_afterStop. cbv zeta. intros ->. by setters.
Qed.

(** C9, on the code. On a desktop browser with one camera, a [start]
    rejected with NotAllowedError, NotFoundError, NotReadableError or
    OverconstrainedError shows the same message in all four cases, the
    one of the inner handler, although the classification of the outer
    handler would tell them apart. *)
Theorem camera_errors_are_not_classified s :
  error (initializeScanner (rejecting "NotAllowedError") s)
    = unclassified_message false /\
  error (initializeScanner (rejecting "NotFoundError") s)
    = unclassified_message false /\
  error (initializeScanner (rejecting "NotReadableError") s)
    = unclassified_message false /\
  error (initializeScanner (rejecting "OverconstrainedError") s)
    = unclassified_message false /\
  classify (mkThrown (Some "NotAllowedError") (Some "refused"))
    <> unclassified_message false.
Proof.
  repeat split;
    try (by apply (inner_failure_message (rejecting _) s)).
  discriminate.
Qed.

(** When nothing else runs in between, an initialization that finds a
    session running, held by the adapter, stops it before it starts the
    new one, and exactly the new session is running afterwards. *)
Lemma uninterrupted_restart_stops_first env s old :
  scanning s = [old] ->
  html5QrCodeRef s = Some old ->
  starts env = true ->
  exists target,
    scanning (initializeScanner env s) = [created s] /\
    html5QrCodeRef (initializeScanner env s) = Some (created s) /\
    trace (initializeScanner env s) =
      trace s ++ [Stopped old; Started (created s) target;
                  ShowGuidesAfter 1000].
Proof.
  intros Hold Href Hstarts.
  unfold initializeScanner. rewrite initializeScanner_unfold.
  set (s0 := setShowGuides false _).
  assert (Hstop : stopScanner s0
                  = setRef None (record (Stopped old) (setScanning [] s0))).
  { unfold stopScanner, awaitStopScanner, stopScanner_begin, lib_stop,
      is_scanning.
    change (html5QrCodeRef s0) with (html5QrCodeRef s).
    change (scanning s0) with (scanning s).
    rewrite Href, Hold.
    rewrite bool_decide_eq_true_2 by apply list_elem_of_here.
    cbn [complete resume fst]. unfold stopScanner_afterStop.
    rewrite filter_cons, decide_False by (intros H; by apply H).
    by rewrite filter_nil. }
  rewrite Hstop. clear Hstop.
  revert Hstarts. unfold starts, initializeScanner_afterStop. cbv zeta.
  destruct (construct env); [discriminate|].
  destruct (start env) eqn:Hstart; [discriminate|].
  destruct (isIOS env) eqn:Hios.
  - intros _. cbn [complete resume].
    unfold initializeScanner_afterStart. rewrite Hstart. setters.
    eexists. repeat split. by rewrite <- !app_assoc.
  - cbn [complete resume]. unfold initializeScanner_afterCameras.
    destruct (getCameras env) as [err|[[|first rest]|]]; try discriminate.
    intros _. cbv zeta. cbn [complete resume].
    unfold initializeScanner_afterStart. rewrite Hstart.
    destruct (backCamera (first :: rest)); setters;
      eexists; repeat split; by rewrite <- !app_assoc.
Qed.

End WithCaseMapping.

Lemma classify_messages_distinct m1 m2 m3 m4 :
  NoDup [classify (mkThrown (Some "NotAllowedError") m1);
         classify (mkThrown (Some "NotFoundError") m2);
         classify (mkThrown (Some "NotReadableError") m3);
         classify (mkThrown (Some "OverconstrainedError") m4)].
Proof.
  cbn. repeat (apply NoDup_cons; split;
               [rewrite ?elem_of_cons, elem_of_nil; intuition discriminate|]).
  apply NoDup_nil_2.
Qed.

(** The message of a single frame that decodes nothing, on a running
    session. *)
Lemma frame_miss_is_silent :
  scanning (run (cm := ascii_labels)
              [PressToggle; ScriptLoaded 1 laptop; Settle 0; Settle 0])
    = [0] /\
  step (cm := ascii_labels)
    (run (cm := ascii_labels)
       [PressToggle; ScriptLoaded 1 laptop; Settle 0; Settle 0])
    (FrameFailed
       "QR code parse error, error = NotFoundException: No barcode or QR code found")
  = run (cm := ascii_labels)
      [PressToggle; ScriptLoaded 1 laptop; Settle 0; Settle 0].
Proof. split; vm_compute; reflexivity. Qed.

(** The owner closes the scanner while the camera list is awaited: the
    clean-up finds an instance that is not scanning, its [stop()] fails,
    and the start that follows leaves a session running for a component
    that is gone. *)
Lemma unmount_during_initialization_leaves_session :
  scanning (run (cm := ascii_labels)
              [PressToggle; ScriptLoaded 1 laptop; EffectCleanup;
               Settle 0; Settle 0]) = [0] /\
  trace (run (cm := ascii_labels)
           [PressToggle; ScriptLoaded 1 laptop; EffectCleanup;
            Settle 0; Settle 0])
  = [StopFailed 0; Started 0 (DeviceId "cam0"); ShowGuidesAfter 1000].
Proof. split; vm_compute; reflexivity. Qed.

(** C7, on the code. The Start button is pressed three times (on, off,
    on) while the library script is still on its way; the scripts of the
    two effects that saw the camera switched on then load and each calls
    [initializeScanner].  The second call finds the instance of the first
    in [html5QrCodeRef], not scanning yet: [stop()] fails, the failure is
    only logged, and a second instance replaces the first.  Both starts
    then resolve: two sessions are running, and the adapter holds only
    the second.  Pressing Stop Camera stops that one; the first keeps
    running, with the camera shown as switched off and no reference left
    to stop it by. *)
Theorem overlapping_initializations_run_two_sessions :
  scanning (run (cm := ascii_labels) overlapping_starts) = [1; 0] /\
  html5QrCodeRef (run (cm := ascii_labels) overlapping_starts) = Some 1 /\
  trace (run (cm := ascii_labels) overlapping_starts)
  = [StopFailed 0;
     Started 0 (DeviceId "cam0"); ShowGuidesAfter 1000;
     Started 1 (DeviceId "cam0"); ShowGuidesAfter 1000] /\
  scanning (run (cm := ascii_labels)
              (overlapping_starts ++ [PressToggle; Settle 2])) = [0] /\
  html5QrCodeRef (run (cm := ascii_labels)
                    (overlapping_starts ++ [PressToggle; Settle 2])) = None /\
  isCameraActive (run (cm := ascii_labels)
                    (overlapping_starts ++ [PressToggle; Settle 2])) = false.
Proof. repeat split; vm_compute; reflexivity. Qed.

End BarcodeScannerProps.

(* ===================================================================== *)
(** * Further properties of the HTTP access layer *)
(* ===================================================================== *)

Module ApiMore.
Import Api ApiProps.

(** [api] with [fuel] left looks at the network only at the next [fuel]
    attempts. *)
Lemma api_agree net net' fuel : forall cfg w,
  (forall n req, sent w <= n < sent w + fuel -> net n req = net' n req) ->
  api net fuel cfg w = api net' fuel cfg w.
Proof.
  induction fuel as [|fuel IH]; intros cfg w Hsame; [reflexivity|].
  cbn [api emit sent events].
  rewrite <- (Hsame (sent w) (request cfg)) by lia.
  destruct (net (sent w) (request cfg)) as [r|f]; [reflexivity|].
  unfold onRejected. destruct (config (raise cfg f)) as [c|]; [|reflexivity].
  destruct (default 0 (retryCount c) <? MAX_RETRIES); [|reflexivity].
  apply IH. intros n req Hn. cbn [emit sent] in Hn. apply Hsame. lia.
Qed.

(** A call that settles within [fuel] nested calls settles alike when
    more are allowed. *)
Lemma api_more_fuel net fuel : forall cfg w x d,
  api net fuel cfg w = Some x ->
  api net (fuel + d) cfg w = Some x.
Proof.
  induction fuel as [|fuel IH]; intros cfg w x d Hrun; [discriminate|].
  cbn [api Nat.add emit sent events] in *.
  destruct (net (sent w) (request cfg)) as [r|f]; [done|].
  unfold onRejected in *. destruct (config (raise cfg f)) as [c|]; [|done].
  destruct (default 0 (retryCount c) <? MAX_RETRIES); [|done].
  by apply IH.
Qed.

(** X1. However many nested retries the interceptor is allowed, a call
    issued by an operation settles without looking past the first four
    attempts of the network: its outcome and log are those of the
    operation, it has made at most four attempts, and a network that
    behaves alike on attempts 0 to 3 gives the same result. *)
Theorem retries_read_four_attempts net net' op fuel :
  S MAX_RETRIES <= fuel ->
  (forall n req, n < S MAX_RETRIES -> net n req = net' n req) ->
  exists out w,
    api net fuel (mkConfig (request_of op) None) (mkWorld 0 [])
      = Some (out, w) /\
    api net' fuel (mkConfig (request_of op) None) (mkWorld 0 [])
      = Some (out, w) /\
    perform net op = Some (out, w) /\
    sent w <= 4.
Proof.
  intros Hfuel Hsame.
  destruct (perform_total net op) as (out & w & Hrun & Hsent & _).
  assert (Hrun' : perform net' op = Some (out, w)).
  { rewrite <- Hrun. symmetry. unfold perform. apply api_agree.
    intros n req Hn. cbn [sent] in Hn. apply Hsame. lia. }
  exists out, w.
  replace fuel with (S MAX_RETRIES + (fuel - S MAX_RETRIES)) by lia.
  split; [by apply api_more_fuel|].
  split; [by apply api_more_fuel|].
  split; [done|]. unfold MAX_RETRIES in Hsent. lia.
Qed.

(** Ten nested retries allowed, and a network that stops answering after
    the fourth attempt. *)
Lemma retries_read_four_attempts_witness :
  exists out w,
    api flaky_net 10 (mkConfig (request_of getAllItems) None) (mkWorld 0 [])
      = Some (out, w) /\
    api (fun n req => if n <? 4 then flaky_net n req else Fails error_500)
        10 (mkConfig (request_of getAllItems) None) (mkWorld 0 [])
      = Some (out, w) /\
    perform flaky_net getAllItems = Some (out, w) /\
    sent w <= 4.
Proof.
  apply (retries_read_four_attempts flaky_net _ getAllItems 10).
  - unfold MAX_RETRIES. lia.
  - intros n req Hn.
    destruct n as [|[|[|[|n]]]]; try reflexivity.
    unfold MAX_RETRIES in Hn. lia.
Defined.

(** A fulfilled [api] call answered at one of its attempts, after failures
    that all carried their configuration. *)
Lemma api_fulfilled_inv net fuel : forall cfg w r w',
  api net fuel cfg w = Some (Fulfilled r, w') ->
  exists k,
    (k = 0 \/ default 0 (retryCount cfg) + k <= MAX_RETRIES) /\
    (forall j, j < k -> fails_with_config net (sent w + j) (request cfg)) /\
    net (sent w + k) (request cfg) = Responds r.
Proof.
  induction fuel as [|fuel IH]; intros cfg w r w' Hrun; [discriminate|].
  cbn [api emit sent events] in Hrun.
  destruct (net (sent w) (request cfg)) as [r0|f] eqn:Hnet.
  - injection Hrun as <- _. exists 0. rewrite !Nat.add_0_r.
    split; [by left|]. split; [intros j Hj; lia|done].
  - unfold onRejected, raise in Hrun.
    destruct (f_has_config f) eqn:Hcfg; [|discriminate].
    cbn [config retryCount request] in Hrun.
    destruct (default 0 (retryCount cfg) <? MAX_RETRIES) eqn:Hlt;
      [|discriminate].
    apply Nat.ltb_lt in Hlt.
    apply IH in Hrun as (k & Hle & Hfail & Hok).
    cbn [emit sent request retryCount default from_option id] in *.
    exists (S k). split; [right; lia|]. split.
    + intros j Hj. destruct j as [|j].
      * rewrite Nat.add_0_r. by exists f.
      * replace (sent w + S j) with (S (sent w) + j) by lia.
        apply Hfail. lia.
    + by replace (sent w + S k) with (S (sent w) + k) by lia.
Qed.

(** X2. An operation is fulfilled with [r] exactly when one of its first
    four attempts answers [r] and every attempt before it failed with an
    error that carries its configuration: it never makes up a response,
    and it never gives up while such an answer is still to come. *)
Theorem fulfilled_iff net op r :
  (exists w, perform net op = Some (Fulfilled r, w)) <->
  (exists k, k <= MAX_RETRIES /\
             (forall j, j < k -> fails_with_config net j (request_of op)) /\
             net k (request_of op) = Responds r).
Proof.
  split.
  - intros [w Hrun]. unfold perform in Hrun.
    apply api_fulfilled_inv in Hrun as (k & Hle & Hfail & Hok).
    exists k. cbn [sent request retryCount default from_option] in *.
    split; [unfold MAX_RETRIES in *; lia|]. by split.
  - intros (k & Hk & Hfail & Hok). eexists. by apply perform_success.
Qed.

(** X3. When the first [k <= 3] attempts fail with their configuration
    and the next one fails with an error that has none, the operation
    stops there: the caller gets that error as it is, after [k + 1]
    attempts, and no further attempt or sleep follows. *)
Theorem failure_without_config_stops_retries net op k f :
  k <= MAX_RETRIES ->
  (forall j, j < k -> fails_with_config net j (request_of op)) ->
  net k (request_of op) = Fails f ->
  f_has_config f = false ->
  perform net op =
    Some (Rejected (mkError (f_code f) (f_response f) (f_message f) None),
          mkWorld (S k)
            (retry_rounds (url (request_of op)) 0 k ++
             [LogRequest (url (request_of op))])).
Proof.
  intros Hk Hfail Hlast Hcfg. unfold perform.
  rewrite api_unset_count.
  replace (S MAX_RETRIES) with (k + S (MAX_RETRIES - k)) by lia.
  rewrite api_rounds.
  2: { simpl. lia. }
  2: { intros j Hj. simpl. auto. }
  cbn [api emit sent events request Nat.add]. rewrite Hlast.
  unfold onRejected, raise. rewrite Hcfg. reflexivity.
Qed.

(** A client-side failure on the second attempt, after one timeout. *)
Lemma failure_without_config_witness :
  perform
    (fun n _ =>
       match n with
       | 0 => Fails (mkFailure (Some "ECONNABORTED") None "timeout" true)
       | _ => Fails (mkFailure None None "boom" false)
       end) (createItem "{}")
  = Some (Rejected (mkError None None "boom" None),
          mkWorld 2 [LogRequest ""; LogRetry 1; Sleep 1000; LogRequest ""]).
Proof.
  apply (failure_without_config_stops_retries _ (createItem "{}") 1
           (mkFailure None None "boom" false)).
  - unfold MAX_RETRIES. lia.
  - intros j Hj. destruct j as [|j]; [|lia]. eexists. split; reflexivity.
  - reflexivity.
  - reflexivity.
Defined.

End ApiMore.
(* ===================================================================== *)
(** * Further properties of the scanner adapter *)
(* ===================================================================== *)

Module BarcodeScannerMore.
Import BarcodeScanner BarcodeScannerProps.



Section WithCaseMapping.
Context {cm : CaseMapping}.


(** An uninterrupted [stopScanner], in one piece. *)
Lemma stopScanner_eq s :
  stopScanner s =
  match html5QrCodeRef s with
  | Some h =>
      if is_scanning h s
      then setRef None
             (record (Stopped h)
                (setScanning (filter (fun x => x ≠ h) (scanning s)) s))
      else log "Error stopping scanner:" (record (StopFailed h) s)
  | None => s
  end.
Proof.
  unfold stopScanner, awaitStopScanner, stopScanner_begin, lib_stop.
  destruct (html5QrCodeRef s) as [h|]; [|done].
  by destruct (is_scanning h s).
Qed.

Lemma toggleCamera_eq s :
  toggleCamera s =
  if isCameraActive s then toggleCamera_afterStop (stopScanner s)
  else setIsCameraActive true s.
Proof.
  unfold toggleCamera, toggleCamera_begin, stopScanner, awaitStopScanner.
  destruct (isCameraActive s); [|done].
  by destruct (stopScanner_begin s).
Qed.

Lemma filter_other_absent (h : nat) (l : list nat) :
  h ∉ l -> filter (fun x => x ≠ h) l = l.
Proof.
  induction l as [|x l IH]; [done|].
  rewrite not_elem_of_cons. intros [Hx Hl].
  rewrite filter_cons, decide_True by done. by rewrite IH.
Qed.

Lemma stopScanner_scanning s :
  scanning (stopScanner s) =
  match html5QrCodeRef s with
  | Some h => filter (fun x => x ≠ h) (scanning s)
  | None => scanning s
  end.
Proof.
  rewrite stopScanner_eq. unfold is_scanning.
  destruct (html5QrCodeRef s) as [h|]; [|done].
  destruct (bool_decide (h ∈ scanning s)) eqn:Hin; setters; [done|].
  apply bool_decide_eq_false in Hin. by rewrite filter_other_absent.
Qed.

(** [stopScanner] touches nothing of what the component shows. *)
Lemma stopScanner_view s :
  error (stopScanner s) = error s /\
  isCameraActive (stopScanner s) = isCameraActive s /\
  isLoading (stopScanner s) = isLoading s /\
  scanningTips (stopScanner s) = scanningTips s /\
  showGuides (stopScanner s) = showGuides s /\
  created (stopScanner s) = created s.
Proof.
  rewrite stopScanner_eq.
  destruct (html5QrCodeRef s) as [h|]; [|done].
  by destruct (is_scanning h s).
Qed.

(** X6. Stopping releases the session of the instance the adapter holds:
    after [stopScanner], run without interruption, that instance is not
    scanning.  When it was scanning, the stop is recorded and the
    reference cleared; when it was not (its start may still be pending),
    the failure is logged and the reference kept.  In both cases,
    pressing the button while the camera is on switches the camera off
    and clears the tips and the guides. *)
Theorem stopping_releases_camera s h :
  html5QrCodeRef s = Some h ->
  (h ∉ scanning (stopScanner s)) /\
  (h ∈ scanning s ->
   html5QrCodeRef (stopScanner s) = None /\
   trace (stopScanner s) = trace s ++ [Stopped h]) /\
  (h ∉ scanning s ->
   html5QrCodeRef (stopScanner s) = Some h /\
   scanning (stopScanner s) = scanning s /\
   trace (stopScanner s) = trace s ++ [StopFailed h] /\
   console (stopScanner s) = console s ++ ["Error stopping scanner:"]) /\
  (isCameraActive s = true ->
   (h ∉ scanning (toggleCamera s)) /\
   isCameraActive (toggleCamera s) = false /\
   scanningTips (toggleCamera s) = "" /\
   showGuides (toggleCamera s) = false).
Proof.
  intros Href.
  assert (Hreleased : h ∉ scanning (stopScanner s)).
  { rewrite stopScanner_scanning, Href, list_elem_of_filter. tauto. }
  split; [done|]. split; [|split].
  - intros Hin. rewrite stopScanner_eq, Href. unfold is_scanning.
    by rewrite bool_decide_eq_true_2.
  - intros Hout. rewrite stopScanner_eq, Href. unfold is_scanning.
    by rewrite bool_decide_eq_false_2.
  - intros Hon. rewrite toggleCamera_eq, Hon. by setters.
Qed.

Lemma classify_not_empty err : classify err <> "".
Proof.
  unfold classify.
  repeat (destruct (name_is err _); [discriminate|]).
  discriminate.
Qed.

(** X7. An initialization that runs without interruption and whose start
    resolves ends, from any state, with the session of the new instance
    running next to whatever [stopScanner] has left, the new instance in
    the reference, no error shown, the loading flag cleared and the
    "camera ready" tip: a reference left by a failed start or a failed
    stop does not prevent it. *)
Theorem initialization_succeeds_when_start_resolves env s :
  starts env = true ->
  scanning (initializeScanner env s)
    = created s :: scanning (stopScanner s) /\
  html5QrCodeRef (initializeScanner env s) = Some (created s) /\
  error (initializeScanner env s) = "" /\
  isLoading (initializeScanner env s) = false /\
  isCameraActive (initializeScanner env s) = isCameraActive s /\
  scanningTips (initializeScanner env s)
    = "Camera ready. Position the barcode in the center of the frame.".
Proof.
  unfold initializeScanner. rewrite initializeScanner_unfold.
  set (s0 := setShowGuides false _).
  assert (Hscanning : scanning (stopScanner s0) = scanning (stopScanner s))
    by by rewrite !stopScanner_scanning.
  destruct (stopScanner_view s0) as (Herror & Hactive & _ & _ & _ & Hcreated).
  change (error s0) with "" in Herror.
  change (isCameraActive s0) with (isCameraActive s) in Hactive.
  change (created s0) with (created s) in Hcreated.
  rewrite <- Hscanning, <- Hactive, <- Hcreated.
  revert Herror. generalize (stopScanner s0). clear. intros t Herror.
  unfold starts, initializeScanner_afterStop. cbv zeta.
  destruct (construct env); [discriminate|].
  destruct (start env) eqn:Hstart; [discriminate|].
  destruct (isIOS env) eqn:Hios.
  - intros _. cbn [complete resume].
    unfold initializeScanner_afterStart. rewrite Hstart. by setters.
  - cbn [complete resume]. unfold initializeScanner_afterCameras.
    destruct (getCameras env) as [err|[[|first rest]|]]; try discriminate.
    intros _. cbv zeta. cbn [complete resume].
    unfold initializeScanner_afterStart. rewrite Hstart.
    by destruct (backCamera (first :: rest)); setters.
Qed.

(** X8. An initialization that runs without interruption and does not
    reach a resolved [start] starts no session, and ends with the camera
    switched off, the loading flag cleared and a non-empty error
    message. *)
Theorem initialization_failure_is_reported env s :
  starts env = false ->
  scanning (initializeScanner env s) = scanning (stopScanner s) /\
  isCameraActive (initializeScanner env s) = false /\
  isLoading (initializeScanner env s) = false /\
  error (initializeScanner env s) <> "".
Proof.
  intros Hstarts. split.
  - unfold initializeScanner. rewrite initializeScanner_unfold.
    set (s0 := setShowGuides false _).
    assert (Hscanning : scanning (stopScanner s0) = scanning (stopScanner s))
      by by rewrite !stopScanner_scanning.
    rewrite <- Hscanning. generalize (stopScanner s0). intros t.
    revert Hstarts. unfold starts, initializeScanner_afterStop. cbv zeta.
    destruct (construct env); [by setters|].
    destruct (isIOS env) eqn:Hios.
    + cbn [complete resume]. unfold initializeScanner_afterStart.
      destruct (start env); [|discriminate]. rewrite Hios. by setters.
    + cbn [complete resume]. unfold initializeScanner_afterCameras.
      destruct (getCameras env) as [err|[[|first rest]|]]; try by setters.
      destruct (start env) eqn:Hstart; [|discriminate].
      intros _. cbv zeta. cbn [complete resume].
      unfold initializeScanner_afterStart. rewrite Hstart, Hios.
      by destruct (backCamera (first :: rest)); setters.
  - destruct (construct env) as [err|] eqn:Hconstruct.
    + rewrite (constructor_failure_is_classified env s err Hconstruct).
      unfold initializeScanner. rewrite initializeScanner_unfold.
      unfold initializeScanner_afterStop. rewrite Hconstruct. cbv zeta.
      setters. cbn [complete fst]. setters.
      repeat split. apply classify_not_empty.
    + destruct (inner_failure_message env s Hconstruct Hstarts)
        as (-> & -> & ->).
      repeat split. by destruct (isIOS env).
Qed.

(** No piece of the async functions hands anything to the owner. *)
Lemma detections_stopScanner_begin s :
  match stopScanner_begin s with
  | StopAwaited t | StopReturned t => detections t = detections s
  end.
Proof.
  unfold stopScanner_begin, lib_stop, detections.
  destruct (html5QrCodeRef s) as [h|]; [|done].
  destruct (is_scanning h s); setters; rewrite omap_app; simpl;
    by rewrite app_nil_r.
Qed.

Lemma detections_awaitStopScanner caller rest s :
  (forall t, detections (rest t).1 = detections t) ->
  detections (awaitStopScanner caller rest s).1 = detections s.
Proof.
  intros Hrest. unfold awaitStopScanner.
  pose proof (detections_stopScanner_begin s) as Hstop.
  destruct (stopScanner_begin s) as [t|t]; [done|].
  by rewrite Hrest.
Qed.

Lemma detections_afterStart env h target s :
  detections (initializeScanner_afterStart env h target s).1 = detections s.
Proof.
  unfold initializeScanner_afterStart, detections.
  destruct (start env), (isIOS env); setters; rewrite ?omap_app; simpl;
    by rewrite ?app_nil_r.
Qed.

Lemma detections_afterCameras env h s :
  detections (initializeScanner_afterCameras env h s).1 = detections s.
Proof.
  unfold initializeScanner_afterCameras, detections.
  destruct (getCameras env) as [err|[[|first rest]|]]; try by setters.
  cbv zeta. by destruct (backCamera (first :: rest)); setters.
Qed.

Lemma detections_afterStop env s :
  detections (initializeScanner_afterStop env s).1 = detections s.
Proof.
  unfold initializeScanner_afterStop, detections. cbv zeta.
  destruct (construct env); [by setters|].
  by destruct (isIOS env); setters.
Qed.

Lemma detections_resume t s : detections (resume t s).1 = detections s.
Proof.
  destruct t as [[| |env]|env h|env h target]; cbn [resume]; cbv zeta.
  - done.
  - done.
  - by rewrite detections_afterStop.
  - apply detections_afterCameras.
  - apply detections_afterStart.
Qed.

Lemma detections_toggleCamera_begin s :
  detections (toggleCamera_begin s).1 = detections s.
Proof.
  unfold toggleCamera_begin. destruct (isCameraActive s); [|done].
  by apply detections_awaitStopScanner.
Qed.

Lemma detections_initializeScanner_begin env s :
  detections (initializeScanner_begin env s).1 = detections s.
Proof.
  unfold initializeScanner_begin. cbv zeta.
  rewrite detections_awaitStopScanner; [done|].
  apply detections_afterStop.
Qed.

Lemma detections_spawn r : detections (spawn r) = detections r.1.
Proof. by destruct r as [s [t|]]. Qed.

Lemma detections_rerunEffect s : detections (rerunEffect s) = detections s.
Proof.
  unfold rerunEffect. cbv zeta.
  change (detections (setScripts ?v ?t)) with (detections t).
  rewrite detections_spawn. by apply detections_awaitStopScanner.
Qed.

Lemma detections_complete fuel : forall r,
  detections (complete fuel r).1 = detections r.1.
Proof.
  induction fuel as [|fuel IH]; intros [s [t|]]; try done.
  cbn [complete]. by rewrite IH, detections_resume.
Qed.

Lemma detections_stopScanner s : detections (stopScanner s) = detections s.
Proof.
  unfold stopScanner. rewrite detections_complete.
  by apply detections_awaitStopScanner.
Qed.

Lemma detections_initializeScanner env s :
  detections (initializeScanner env s) = detections s.
Proof.
  unfold initializeScanner.
  by rewrite detections_complete, detections_initializeScanner_begin.
Qed.

Lemma detections_handle s a :
  detections (handle a s) =
  detections s ++
  match a with
  | FrameDecoded decodedText =>
      if scanning s is [] then [] else [decodedText]
  | _ => []
  end.
Proof.
  destruct a as [|i env|i|i| | |text|msg]; cbn [handle]; rewrite ?app_nil_r.
  - destruct (isLoading s); [done|].
    by rewrite detections_spawn, detections_toggleCamera_begin.
  - destruct (scripts s !! i) as [[captured []]|]; try done.
    destruct captured; [|done].
    by rewrite detections_spawn, detections_initializeScanner_begin.
  - by destruct (scripts s !! i) as [[captured []]|].
  - destruct (pending s !! i) as [[t|]|]; try done.
    change (detections (setPending ?v ?t)) with (detections t).
    apply detections_resume.
  - by destruct (timers s).
  - rewrite detections_spawn. by apply detections_awaitStopScanner.
  - destruct (scanning s); [by rewrite app_nil_r|].
    unfold detections, onScanSuccess, handleBarcodeDetected. setters.
    by rewrite omap_app.
  - destruct (scanning s); [done|].
    unfold onScanFailure. by destruct (negb _).
Qed.

(** X9. The adapter hands a decoded text to its owner exactly once per
    decoded frame of a running session, and at no other time: button
    presses, script events, initializations, whether they start, resume
    or fail, timers, clean-ups, re-runs of the effect and frames that
    decode nothing never emit anything. *)
Theorem detections_only_from_decoded_frames s a :
  detections (step s a) =
  detections s ++
  match a with
  | FrameDecoded decodedText =>
      if scanning s is [] then [] else [decodedText]
  | _ => []
  end.
Proof.
  unfold step. cbv zeta.
  destruct (Bool.eqb _ _); rewrite ?detections_rerunEffect;
    apply detections_handle.
Qed.

End WithCaseMapping.

(** The camera is stopped with the guides on show. *)
Lemma stopping_releases_camera_witness :
  showGuides (run (cm := ascii_labels)
                [PressToggle; ScriptLoaded 1 laptop; Settle 0; Settle 0;
                 TimerFired]) = true /\
  scanning (toggleCamera (cm := ascii_labels)
              (run (cm := ascii_labels)
                 [PressToggle; ScriptLoaded 1 laptop; Settle 0; Settle 0;
                  TimerFired])) = [] /\
  showGuides (toggleCamera (cm := ascii_labels)
                (run (cm := ascii_labels)
                   [PressToggle; ScriptLoaded 1 laptop; Settle 0; Settle 0;
                    TimerFired])) = false.
Proof.
  split; [vm_compute; reflexivity|].
  destruct (stopping_releases_camera (cm := ascii_labels)
              (run (cm := ascii_labels)
                 [PressToggle; ScriptLoaded 1 laptop; Settle 0; Settle 0;
                  TimerFired]) 0 ltac:(vm_compute; reflexivity))
    as (_ & _ & _ & Htoggle).
  destruct (Htoggle ltac:(vm_compute; reflexivity)) as (_ & _ & _ & Hguides).
  split; [vm_compute; reflexivity|exact Hguides].
Defined.

(** After a rejected start, which leaves its instance in the reference,
    the next initialization succeeds. *)
Lemma initialization_after_failure_witness :
  html5QrCodeRef
    (run (cm := ascii_labels)
       [PressToggle; ScriptLoaded 1 (rejecting "NotReadableError");
        Settle 0; Settle 0]) = Some 0 /\
  html5QrCodeRef
    (initializeScanner (cm := ascii_labels) laptop
       (run (cm := ascii_labels)
          [PressToggle; ScriptLoaded 1 (rejecting "NotReadableError");
           Settle 0; Settle 0])) = Some 1 /\
  error
    (initializeScanner (cm := ascii_labels) laptop
       (run (cm := ascii_labels)
          [PressToggle; ScriptLoaded 1 (rejecting "NotReadableError");
           Settle 0; Settle 0])) = "".
Proof.
  split; [vm_compute; reflexivity|].
  destruct (initialization_succeeds_when_start_resolves (cm := ascii_labels)
              laptop
              (run (cm := ascii_labels)
                 [PressToggle; ScriptLoaded 1 (rejecting "NotReadableError");
                  Settle 0; Settle 0]) eq_refl)
    as (_ & Href & Herror & _).
  split; [exact Href|exact Herror].
Defined.

Lemma initialization_failure_witness :
  starts (rejecting "NotAllowedError") = false /\
  isCameraActive
    (initializeScanner (cm := ascii_labels) (rejecting "NotAllowedError")
       (run (cm := ascii_labels) [PressToggle])) = false /\
  isLoading
    (initializeScanner (cm := ascii_labels) (rejecting "NotAllowedError")
       (run (cm := ascii_labels) [PressToggle])) = false.
Proof.
  split; [reflexivity|].
  destruct (initialization_failure_is_reported (cm := ascii_labels)
              (rejecting "NotAllowedError")
              (run (cm := ascii_labels) [PressToggle]) eq_refl)
    as (_ & H1 & H2 & _).
  by split.
Defined.

End BarcodeScannerMore.

(* ===================================================================== *)
(** * Properties of the inventory page *)
(* ===================================================================== *)

Module InventoryPageProps.
Import Js InventoryPage.

(** X10. Deleting: when the user declines the confirmation nothing
    happens and no request is made; when the deletion is accepted by the
    server, exactly the items with that id disappear, the others stay in
    their order, and the error is cleared; when it is refused, the list
    is left as it was and an error is shown.  A confirmed deletion makes
    exactly one request. *)
Theorem delete_removes_exactly_that_id server id s :
  handleDeleteItem server false id s = (s, []) /\
  snd (handleDeleteItem server true id s) = [DeleteItem id] /\
  (deleteItem server id = Resolved tt ->
   (forall item, item ∈ items (fst (handleDeleteItem server true id s)) <->
                 item ∈ items s /\ has_id id item = false) /\
   items (fst (handleDeleteItem server true id s)) `sublist_of` items s /\
   error (fst (handleDeleteItem server true id s)) = None) /\
  (deleteItem server id = Refused ->
   items (fst (handleDeleteItem server true id s)) = items s /\
   error (fst (handleDeleteItem server true id s))
     = Some "Failed to delete item. Please try again.").
Proof.
  split; [reflexivity|]. unfold handleDeleteItem. cbn [negb].
  split; [by destruct (deleteItem server id)|]. split.
  - intros ->. cbn [fst items error]. split; [|split; [|done]].
    + intros item. by rewrite !list_elem_of_In, filter_In, negb_true_iff.
    + induction (items s) as [|x l IH]; simpl; [done|].
      destruct (negb (has_id id x)).
      * by apply sublist_skip.
      * by apply sublist_cons.
  - by intros ->.
Qed.

Lemma delete_witness :
  items (fst (handleDeleteItem obliging true "1" two_items))
  = [ {[ "id" := Str "2"; "name" := Str "beans" ]} ] /\
  items (fst (handleDeleteItem unreachable true "1" two_items))
  = items two_items.
Proof.
  split; [reflexivity|].
  exact (proj1 (proj2 (proj2 (proj2
           (delete_removes_exactly_that_id unreachable "1" two_items)))
           eq_refl)).
Defined.

Section WithConversions.
Context {conv : Conversions}.

(** X13. From a scan to the submission: a detected barcode closes the
    scanner, opens the add form, and, when it is not empty, is what an
    otherwise untouched add form sends, as the only field; an empty
    barcode leaves the form untouched, and submitting it sends an empty
    object. *)
Theorem scanned_barcode_reaches_submission barcode s :
  showScanner (handleBarcodeDetected barcode s) = false /\
  showAddForm (handleBarcodeDetected barcode s) = true /\
  items (handleBarcodeDetected barcode s) = items s /\
  AddItemForm.dataToSend
    (withInitialBarcode (scannedBarcode (handleBarcodeDetected barcode s))
       AddItemForm.initialFormData)
  = if String.eqb barcode "" then ∅ else {[ "barcode" := Str barcode ]}.
Proof.
  repeat split. cbn [handleBarcodeDetected scannedBarcode].
  destruct barcode as [|c barcode]; reflexivity.
Qed.

End WithConversions.

End InventoryPageProps.

(* ===================================================================== *)
(** * Properties of the dashboard's expiry classification *)
(* ===================================================================== *)

Module DashboardPageProps.
Import DashboardPage.
Import SpecFloat.

(** The order of the specification of binary64 comparison is
    transitive. *)
Lemma SFleb_SFltb_trans a b c :
  SFleb a b = true -> SFltb b c = true -> SFltb a c = true.
Proof.
  unfold SFleb, SFltb.
  destruct a as [sa|sa| |sa ma ea], b as [sb|sb| |sb mb eb],
           c as [sc|sc| |sc mc ec]; simpl; try done;
    try (by destruct sa); try (by destruct sb); try (by destruct sc);
    try (by destruct sa, sb); try (by destruct sb, sc);
    try (by destruct sa, sc); try (by destruct sa, sb, sc).
  change (Pos.compare_cont Eq ?x ?y) with (Pos.compare x y).
  destruct sa, sb, sc; try done;
    destruct (Z.compare_spec ea eb), (Z.compare_spec eb ec),
             (Z.compare_spec ea ec); simpl; try done; try lia;
    destruct (Pos.compare_spec ma mb), (Pos.compare_spec mb mc),
             (Pos.compare_spec ma mc); simpl; try done; lia.
Qed.

Lemma SFleb_trans a b c :
  SFleb a b = true -> SFleb b c = true -> SFleb a c = true.
Proof.
  unfold SFleb.
  destruct a as [sa|sa| |sa ma ea], b as [sb|sb| |sb mb eb],
           c as [sc|sc| |sc mc ec]; simpl; try done;
    try (by destruct sa); try (by destruct sb); try (by destruct sc);
    try (by destruct sa, sb); try (by destruct sb, sc);
    try (by destruct sa, sc); try (by destruct sa, sb, sc).
  change (Pos.compare_cont Eq ?x ?y) with (Pos.compare x y).
  destruct sa, sb, sc; try done;
    destruct (Z.compare_spec ea eb), (Z.compare_spec eb ec),
             (Z.compare_spec ea ec); simpl; try done; try lia;
    destruct (Pos.compare_spec ma mb), (Pos.compare_spec mb mc),
             (Pos.compare_spec ma mc); simpl; try done; lia.
Qed.

Lemma leb_ltb_trans x y z :
  PrimFloat.leb x y = true -> PrimFloat.ltb y z = true ->
  PrimFloat.ltb x z = true.
Proof.
  rewrite FloatAxioms.leb_spec, !FloatAxioms.ltb_spec.
  apply SFleb_SFltb_trans.
Qed.

Lemma leb_trans x y z :
  PrimFloat.leb x y = true -> PrimFloat.leb y z = true ->
  PrimFloat.leb x z = true.
Proof. rewrite !FloatAxioms.leb_spec. apply SFleb_trans. Qed.

(** A NaN compares false with everything. *)
Lemma nan_compares_false x y :
  is_nan x = true ->
  PrimFloat.ltb x y = false /\ PrimFloat.leb x y = false.
Proof.
  unfold is_nan. rewrite negb_true_iff, FloatAxioms.eqb_spec, FloatAxioms.ltb_spec,
    FloatAxioms.leb_spec.
  unfold SFeqb, SFltb, SFleb.
  destruct (Prim2SF x) as [s|s| |s m e]; simpl; try done.
  - by destruct s.
  - destruct s; rewrite Z.compare_refl;
      change (Pos.compare_cont Eq m m) with (Pos.compare m m);
      by rewrite Pos.compare_refl.
Qed.

(** X14. The status column and the days column agree: a row is marked
    expired exactly when its days cell reads 'Expired'; and a number of
    days that is not a number (an expiry date that does not parse) is
    marked good, with the days cell showing that value. *)
Theorem expired_status_matches_days_cell d :
  (getExpiryStatus d = expired <-> daysCell d = ExpiredText) /\
  (is_nan d = true -> getExpiryStatus d = good /\ daysCell d = Days d).
Proof.
  unfold getExpiryStatus, daysCell. split.
  - destruct (PrimFloat.ltb d 0); [done|].
    destruct (PrimFloat.leb d 7), (PrimFloat.leb d 30); split; discriminate.
  - intros Hnan.
    destruct (nan_compares_false d 0 Hnan) as [-> _].
    destruct (nan_compares_false d 7 Hnan) as [_ ->].
    by destruct (nan_compares_false d 30 Hnan) as [_ ->].
Qed.

(** X15. The classification is monotone: of two numbers of days, the
    smaller one is never given a less urgent status. *)
Theorem fewer_days_never_less_urgent d1 d2 :
  PrimFloat.leb d1 d2 = true ->
  urgency (getExpiryStatus d2) <= urgency (getExpiryStatus d1).
Proof.
  intros Hle. unfold getExpiryStatus.
  destruct (PrimFloat.ltb d2 0) eqn:H0.
  { by rewrite (leb_ltb_trans _ _ _ Hle H0). }
  destruct (PrimFloat.ltb d1 0); [simpl; destruct (PrimFloat.leb d2 7),
    (PrimFloat.leb d2 30); simpl; lia|].
  destruct (PrimFloat.leb d2 7) eqn:H7.
  { by rewrite (leb_trans _ _ _ Hle H7). }
  destruct (PrimFloat.leb d1 7); [destruct (PrimFloat.leb d2 30); simpl; lia|].
  destruct (PrimFloat.leb d2 30) eqn:H30.
  { by rewrite (leb_trans _ _ _ Hle H30). }
  destruct (PrimFloat.leb d1 30); simpl; lia.
Qed.

Lemma fewer_days_witness :
  getExpiryStatus 3 = critical /\ getExpiryStatus 10 = warning /\
  urgency (getExpiryStatus 10) <= urgency (getExpiryStatus 3).
Proof.
  split; [reflexivity|]. split; [reflexivity|].
  exact (fewer_days_never_less_urgent 3 10 eq_refl).
Defined.

End DashboardPageProps.

(* ===================================================================== *)
(** * Further properties of the item forms *)
(* ===================================================================== *)

Module FormsMore.
Import Js JsProps.

Section WithConversions.
Context {conv : Conversions}.

(** X16. In the creation form the inputs handled by [handleChange] (all
    but the barcode input) are independent: a change to one of them never
    alters what is sent for another field; a text input is sent as typed
    unless it is empty, and a numeric input is sent, as the number it
    converts to, only when that number is not NaN and is above zero. *)
Theorem create_fields_independent formData name value :
  AddItemForm.uses_handleChange name = true ->
  (forall k, k <> name ->
     AddItemForm.dataToSend (AddItemForm.handleChange name value formData) !! k
     = AddItemForm.dataToSend formData !! k) /\
  (isNumericKey name = false ->
   AddItemForm.dataToSend (AddItemForm.handleChange name value formData) !! name
   = if String.eqb value "" then None else Some (Str value)) /\
  (isNumericKey name = true ->
   AddItemForm.dataToSend (AddItemForm.handleChange name value formData) !! name
   = if String.eqb value "" then None
     else if negb (isNaN (StringToNumber value))
             && PrimFloat.ltb 0 (StringToNumber value)
          then Some (Num (StringToNumber value)) else None).
Proof.
  intros _. unfold AddItemForm.handleChange. split; [|split].
  - intros k Hk.
    by rewrite !AddItemFormProps.created_lookup, lookup_insert_ne.
  - intros Hnum.
    rewrite AddItemFormProps.created_lookup, lookup_insert_eq, Hnum. simpl.
    unfold AddItemForm.addEntry. rewrite Hnum. simpl.
    destruct (String.eqb value "") eqn:Hv; simpl; [done|].
    by rewrite lookup_insert_eq.
  - intros Hnum.
    rewrite AddItemFormProps.created_lookup, lookup_insert_eq, Hnum. simpl.
    unfold AddItemForm.addEntry. rewrite Hnum.
    destruct (String.eqb value "") eqn:Hv; simpl; [done|].
    destruct (negb (isNaN (StringToNumber value))
              && PrimFloat.ltb 0 (StringToNumber value)); [|done].
    by rewrite lookup_insert_eq.
Qed.

(** What the edit form submits after one more assignment to the working
    copy. *)
Lemma edit_after_assignment item formData name x :
  EditItemForm.dataToSend item (<[name := x]> formData) =
  match EditItemForm.editEntry item name x ∅ !! name with
  | Some y => <[name := y]> (EditItemForm.dataToSend item formData)
  | None => delete name (EditItemForm.dataToSend item formData)
  end.
Proof.
  apply map_eq. intros k.
  rewrite EditItemFormProps.edited_lookup.
  destruct (decide (k = name)) as [->|Hne].
  - rewrite lookup_insert_eq. simpl.
    destruct (EditItemForm.editEntry item name x ∅ !! name) as [y|].
    + by rewrite lookup_insert_eq.
    + by rewrite lookup_delete_eq.
  - rewrite lookup_insert_ne by done.
    rewrite <- EditItemFormProps.edited_lookup.
    destruct (EditItemForm.editEntry item name x ∅ !! name) as [y|].
    + by rewrite lookup_insert_ne.
    + by rewrite lookup_delete_ne.
Qed.

Lemma submit_singleton item name y :
  truthy (get item "id") = true ->
  (if size ({[name := y]} : Object) =? 0
   then EditItemForm.ShowError "No changes were made to the item"
   else EditItemForm.CallUpdateItem (get item "id") {[name := y]})
  = EditItemForm.CallUpdateItem (get item "id") {[name := y]}.
Proof. intros _. by rewrite map_size_singleton. Qed.

(** X17. Editing one text field of a plain record through an input
    handled by [handleChange] (any text input but the barcode): emptying
    it submits the clear marker for that field alone when the record had
    a value and nothing otherwise; typing the value the record already
    has submits nothing ("No changes were made"); typing any other value
    submits exactly that field with the new text. *)
Theorem edit_one_text_field item name value :
  EditItemForm.plain_item item = true ->
  truthy (get item "id") = true ->
  EditItemForm.uses_handleChange name = true ->
  isNumericKey name = false ->
  EditItemForm.handleSubmit item
    (EditItemForm.handleChange name value (EditItemForm.initialFormData item))
  = if String.eqb value "" then
      if strict_eq (get item name) Undefined
      then EditItemForm.ShowError "No changes were made to the item"
      else EditItemForm.CallUpdateItem (get item "id") {[ name := Undefined ]}
    else if strict_eq (Str value) (get item name)
      then EditItemForm.ShowError "No changes were made to the item"
      else EditItemForm.CallUpdateItem (get item "id") {[ name := Str value ]}.
Proof.
  intros Hplain Hid _ Hnum.
  unfold EditItemForm.handleSubmit, EditItemForm.handleChange.
  rewrite Hid, Hnum. cbn [negb]. cbv zeta.
  rewrite edit_after_assignment,
    (EditItemFormProps.untouched_form_is_empty item Hplain).
  unfold EditItemForm.editEntry. rewrite Hnum. cbv zeta.
  change (strict_eq (Str value) (Str "")) with (String.eqb value "").
  cbn [truthy ToString].
  destruct (String.eqb value "") eqn:Hv.
  - destruct (strict_eq (get item name) Undefined); cbn [negb].
    + by rewrite lookup_empty, delete_empty, map_size_empty.
    + rewrite lookup_insert_eq, insert_empty. by apply submit_singleton.
  - destruct (strict_eq (Str value) (get item name)); cbn [negb].
    + by rewrite lookup_empty, delete_empty, map_size_empty.
    + rewrite lookup_insert_eq, insert_empty. by apply submit_singleton.
Qed.

(** X18. Editing one numeric field of a plain record: an emptied input
    submits nothing; any other input is converted to a number and
    submitted, alone, whenever that number is not identical to the
    record's, with no test that it is positive or even a number. *)
Theorem edit_one_numeric_field item name value :
  EditItemForm.plain_item item = true ->
  truthy (get item "id") = true ->
  isNumericKey name = true ->
  EditItemForm.handleSubmit item
    (EditItemForm.handleChange name value (EditItemForm.initialFormData item))
  = if String.eqb value "" then
      EditItemForm.ShowError "No changes were made to the item"
    else if strict_eq (Num (StringToNumber value)) (get item name)
      then EditItemForm.ShowError "No changes were made to the item"
      else EditItemForm.CallUpdateItem (get item "id")
             {[ name := Num (StringToNumber value) ]}.
Proof.
  intros Hplain Hid Hnum.
  unfold EditItemForm.handleSubmit, EditItemForm.handleChange.
  rewrite Hid, Hnum. cbn [negb]. cbv zeta.
  rewrite edit_after_assignment,
    (EditItemFormProps.untouched_form_is_empty item Hplain).
  unfold EditItemForm.editEntry. rewrite Hnum. cbv zeta.
  destruct (String.eqb value "") eqn:Hv.
  - change (strict_eq Undefined (Str "")) with false.
    change (strict_eq Undefined Undefined) with true. cbn [negb].
    by rewrite lookup_empty, delete_empty, map_size_empty.
  - change (strict_eq (Num (StringToNumber value)) (Str "")) with false.
    change (strict_eq (Num (StringToNumber value)) Undefined) with false.
    cbn [negb ToNumber].
    destruct (strict_eq (Num (StringToNumber value)) (get item name));
      cbn [negb].
    + by rewrite lookup_empty, delete_empty, map_size_empty.
    + rewrite lookup_insert_eq, insert_empty. by apply submit_singleton.
Qed.

(** The working copy after a sequence of inputs. *)
Lemma edits_keep_absent (edits : list (string * string)) k
    (formData : Object) :
  Forall (fun e => e.1 <> k) edits ->
  formData !! k = None ->
  foldl (fun fd e => EditItemForm.handleChange e.1 e.2 fd) formData edits !! k
  = None.
Proof.
  intros Hedits. revert formData.
  induction Hedits as [|[name value] edits Hne _ IH]; intros formData Hk;
    [done|].
  cbn [foldl]. apply IH. unfold EditItemForm.handleChange.
  by rewrite lookup_insert_ne.
Qed.

(** X19. The edit form submits only fields of its working copy, and
    never the record's id: whatever the user types into the other
    inputs, [id] is not part of the change-set. *)
Theorem edit_never_submits_id item (edits : list (string * string)) :
  (forall formData k, formData !! k = None ->
     EditItemForm.dataToSend item formData !! k = None) /\
  (Forall (fun e => e.1 <> "id") edits ->
   EditItemForm.dataToSend item
     (foldl (fun fd e => EditItemForm.handleChange e.1 e.2 fd)
        (EditItemForm.initialFormData item) edits) !! "id" = None).
Proof.
  assert (Habsent : forall formData k, formData !! k = None ->
            EditItemForm.dataToSend item formData !! k = None).
  { intros formData k Hk.
    by rewrite EditItemFormProps.edited_lookup, Hk. }
  split; [exact Habsent|].
  intros Hedits. apply Habsent, edits_keep_absent; [done|].
  reflexivity.
Qed.

End WithConversions.

(** A category typed into the empty creation form. *)
Lemma create_fields_independent_witness :
  AddItemForm.dataToSend (conv := no_conversions)
    (AddItemForm.handleChange (conv := no_conversions) "category" "drinks"
       AddItemForm.initialFormData) !! "category"
  = Some (Str "drinks") /\
  AddItemForm.dataToSend (conv := no_conversions)
    (AddItemForm.handleChange (conv := no_conversions) "category" "drinks"
       AddItemForm.initialFormData) !! "name"
  = AddItemForm.dataToSend (conv := no_conversions)
      AddItemForm.initialFormData !! "name".
Proof.
  destruct (create_fields_independent (conv := no_conversions)
              AddItemForm.initialFormData "category" "drinks" eq_refl)
    as (Hother & Htext & _).
  split; [exact (Htext eq_refl)|].
  apply Hother. discriminate.
Defined.

Lemma edit_one_text_field_witness :
  EditItemForm.handleSubmit (conv := no_conversions) EditItemForm.food_item
    (EditItemForm.handleChange (conv := no_conversions) "category" "drinks"
       (EditItemForm.initialFormData EditItemForm.food_item))
  = EditItemForm.CallUpdateItem (Str "1") {[ "category" := Str "drinks" ]}.
Proof.
  exact (edit_one_text_field (conv := no_conversions) EditItemForm.food_item
           "category" "drinks" eq_refl eq_refl eq_refl eq_refl).
Defined.

(** A conversion that knows the numeral "0". *)
Lemma edit_one_numeric_field_witness :
  EditItemForm.handleSubmit
    (conv := {| StringToNumber := fun s => if String.eqb s "0" then 0%float
                                           else nan;
                NumberToString := fun _ => "" |})
    EditItemForm.food_item
    (EditItemForm.handleChange
       (conv := {| StringToNumber := fun s => if String.eqb s "0" then 0%float
                                              else nan;
                   NumberToString := fun _ => "" |})
       "price" "0" (EditItemForm.initialFormData EditItemForm.food_item))
  = EditItemForm.CallUpdateItem (Str "1") {[ "price" := Num 0%float ]}.
Proof.
  exact (edit_one_numeric_field
           (conv := {| StringToNumber :=
                         fun s => if String.eqb s "0" then 0%float else nan;
                       NumberToString := fun _ => "" |})
           EditItemForm.food_item "price" "0" eq_refl eq_refl eq_refl).
Defined.

Lemma edit_never_submits_id_witness :
  EditItemForm.dataToSend (conv := no_conversions) EditItemForm.food_item
    (foldl (fun fd e => EditItemForm.handleChange (conv := no_conversions)
                          e.1 e.2 fd)
       (EditItemForm.initialFormData EditItemForm.food_item)
       [("name", "rice"); ("price", "")]) !! "id" = None.
Proof.
  apply (proj2 (edit_never_submits_id (conv := no_conversions)
                  EditItemForm.food_item [("name", "rice"); ("price", "")])).
  repeat constructor; discriminate.
Defined.

End FormsMore.

(* ===================================================================== *)
(** * Further properties of the image lookup *)
(* ===================================================================== *)

Module ImageLookupMore.
Import ImageLookup ImageLookupProps.

(** X20. The lookup never throws, whatever the catalog does; a rejected
    request or a body that is not JSON yields [null]; and a result other
    than [null] can only come from a document that is an object whose
    [status] is the number 1 and whose [product] member is present and
    not [null]. *)
Theorem lookup_degrades_to_null fetch barcode :
  (exists v, getProductImage fetch barcode = Return v) /\
  (fetch (catalog_url barcode) = FetchRejected \/
   fetch (catalog_url barcode) = BodyNotJson ->
   getProductImage fetch barcode = Return Null) /\
  (forall data,
     fetch (catalog_url barcode) = Parsed data ->
     getProductImage fetch barcode <> Return Null ->
     exists members n product,
       data = Obj members /\
       members !! "status" = Some (Num n) /\ PrimFloat.eqb n 1 = true /\
       members !! "product" = Some product /\
       product <> Null /\ product <> Undefined).
Proof.
  split; [apply getProductImage_returns|].
  split; [apply no_document_yields_null|].
  intros data Hfetch Hres.
  unfold getProductImage, fetch_json in Hres. rewrite Hfetch in Hres.
  unfold mbind, completion_bind in Hres. cbn [bind] in Hres.
  destruct data as [| |b|n|s|items|members]; try done.
  cbn [member bind] in Hres.
  destruct (members !! "status") as [[| |b|n|s|items|ms]|] eqn:Hstatus;
    try done.
  cbn [default from_option id is_one] in Hres.
  destruct (PrimFloat.eqb n 1) eqn:Hone; [|done].
  destruct (members !! "product") as [product|] eqn:Hproduct; [|done].
  exists members, n, product. repeat split; try done.
  - intros ->. done.
  - intros ->. done.
Qed.

(** X21. For a product the catalog knows, the front image is returned
    whenever it is truthy, even when a generic image is present too;
    otherwise the generic image member is returned, whatever it holds. *)
Theorem found_product_prefers_front_image fetch barcode members product :
  fetch (catalog_url barcode) = Parsed (Obj members) ->
  members !! "status" = Some (Num 1%float) ->
  members !! "product" = Some (Obj product) ->
  (forall front, product !! "image_front_url" = Some front ->
     truthy front = true ->
     getProductImage fetch barcode = Return front) /\
  (truthy (default Undefined (product !! "image_front_url")) = false ->
   getProductImage fetch barcode
   = Return (default Undefined (product !! "image_url"))).
Proof.
  intros Hfetch Hstatus Hproduct.
  rewrite (found_yields_image fetch barcode members product) by done.
  split.
  - intros front Hfront Htruthy. rewrite Hfront. simpl. by rewrite Htruthy.
  - by intros ->.
Qed.

Lemma found_product_witness :
  getProductImage (fun _ => Parsed found_answer) "737628064502"
  = Return (Str "https://img/front.jpg").
Proof.
  refine (proj1 (found_product_prefers_front_image
                   (fun _ => Parsed found_answer) "737628064502"
                   _ _ eq_refl eq_refl eq_refl) _ eq_refl eq_refl).
Defined.

End ImageLookupMore.
